(** * Avii Pro backend: retrieval orchestration, ingestion and chat log

    A shallow embedding of [engine.py] (intent classification, retrieval
    orchestration, completion, PDF ingestion, index reset) and of the
    endpoints of [main.py] that write the session/message tables
    ([chat_endpoint], [delete_session], [reset_db]) over the tables of
    [database.py].

    External services (the Mistral completion API, the Tavily search API, the
    Chroma collection with its Cohere embedding, the PDF reader, the clock,
    the uuid generator, the SQL backend) are not part of the repository: they
    are the fields of a [World] record the program is run against.  Python
    exceptions are explicit ([Raise]), mutable stores (the Chroma collection,
    the SQL tables) are threaded through a state monad, and every request
    sent to an external retrieval or completion service is appended to a
    trace so that "never invoked" can be stated. *)

From Stdlib Require Import Ascii String PrimFloat.
From Stdlib.Strings Require Import Byte.
From stdpp Require Import base numbers list strings gmap pretty sorting.

Open Scope string_scope.
Open Scope nat_scope.
Open Scope list_scope.

(** ** Python strings

    A Python [str] is modelled as a Rocq [string] whose characters are the
    code points U+0000 to U+00FF, one character per code point, so that
    [len], indexing and slicing count characters as Python does.  On that
    alphabet [is_space] is [str.isspace], which is the set [str.strip()]
    removes, and [lower] is [str.lower()].  [upper] is [str.upper()] except at
    U+00B5 and U+00FF, whose upper-case forms U+039C and U+0178 lie outside
    the alphabet and which are left as they are; the engine compares an
    upper-cased string with "WEB" and "PDF" only, and neither form occurs in
    them. *)
Module Py.

Definition code (c : ascii) : nat := nat_of_ascii c.

(** Letters with a lower-case form: A-Z and U+00C0-U+00DE except the
    multiplication sign U+00D7. *)
Definition is_upper (c : ascii) : bool :=
  ((65 <=? code c) && (code c <=? 90))
  || ((192 <=? code c) && (code c <=? 222) && negb (code c =? 215)).

(** Letters whose upper-case form is one character of the alphabet: a-z and
    U+00E0-U+00FE except the division sign U+00F7. *)
Definition is_lower (c : ascii) : bool :=
  ((97 <=? code c) && (code c <=? 122))
  || ((224 <=? code c) && (code c <=? 254) && negb (code c =? 247)).

Definition lower_char (c : ascii) : ascii :=
  if is_upper c then ascii_of_nat (code c + 32) else c.

(** The sharp s U+00DF is upper-cased to the two letters SS. *)
Definition upper_char (c : ascii) : string :=
  if is_lower c then String (ascii_of_nat (code c - 32)) EmptyString
  else if code c =? 223 then "SS"
  else String c EmptyString.

(** [str.lower] and [str.upper]. *)
Fixpoint lower (s : string) : string :=
  match s with
  | EmptyString => EmptyString
  | String c s' => String (lower_char c) (lower s')
  end.

Fixpoint upper (s : string) : string :=
  match s with
  | EmptyString => EmptyString
  | String c s' => upper_char c +:+ upper s'
  end.

(** The characters [str.isspace] accepts: TAB, LF, VT, FF, CR, the
    separators FS, GS, RS, US, the space, NEL (U+0085) and the no-break
    space (U+00A0). *)
Definition is_space (c : ascii) : bool :=
  ((9 <=? code c) && (code c <=? 13)) || ((28 <=? code c) && (code c <=? 32))
  || (code c =? 133) || (code c =? 160).

Fixpoint lstrip (s : string) : string :=
  match s with
  | EmptyString => EmptyString
  | String c s' => if is_space c then lstrip s' else s
  end.

Definition rstrip (s : string) : string := String.rev (lstrip (String.rev s)).

(** [str.strip()] *)
Definition strip (s : string) : string := rstrip (lstrip s).

Definition len (s : string) : nat := String.length s.

(** Truth value of a [str]: non-empty. *)
Definition truthy (s : string) : bool := negb (String.eqb s "").

(** Truth value of an [Optional[str]]. *)
Definition truthy_opt (o : option string) : bool :=
  match o with
  | Some s => truthy s
  | None => false
  end.

(** [s[i:j]] for indices [0 <= i]: both ends are clipped to the length. *)
Definition slice (s : string) (i j : nat) : string := String.substring i (j - i) s.

(** [range(start, stop, step)] for a positive step, unrolled the way the
    iterator runs: yield [i] while [i < stop].  [fuel] bounds the number of
    iterations; [stop - start] always suffices. *)
Fixpoint range_from (fuel i stop step : nat) : list nat :=
  match fuel with
  | O => []
  | S fuel' => if i <? stop then i :: range_from fuel' (i + step) stop step else []
  end.

Definition range (start stop step : nat) : list nat :=
  range_from (stop - start) start stop step.

(** [sep.join(parts)] *)
Definition join (sep : string) (parts : list string) : string := String.concat sep parts.

(** [l[-n:]] on a list. *)
Definition last_n {A} (n : nat) (l : list A) : list A := drop (length l - n) l.

(** [str(i)] for an [int]. *)
Definition str_int (i : Z) : string := pretty i.

Definition nl : string := String "010"%char EmptyString.
Definition dquote : string := String "034"%char EmptyString.

End Py.

(** ** Exceptions and results *)

Inductive exn : Type :=
| Exception (msg : string)
| HTTPException (status_code : nat) (detail : string).

(** [str(e)] *)
Definition str_exn (e : exn) : string :=
  match e with
  | Exception msg => msg
  | HTTPException c d => pretty c +:+ ": " +:+ d
  end.

Inductive result (A : Type) : Type :=
| Ok (a : A)
| Raise (e : exn).
Arguments Ok {A} a.
Arguments Raise {A} e.

(** ** The Chroma collection

    The collection [avii_knowledge_base] as a list of entries in insertion
    order.  The operations follow the client calls the engine makes:
    [get()], [delete(ids=...)], [add(documents, ids, metadatas)] and
    [query(query_texts=[q], n_results=n, where={k: v})]. *)
Module Chroma.

Record Entry : Type := mkEntry {
  id : string;
  document : string;
  metadata : gmap string string
}.

(** [where={k: v}]: metadata equality filter. *)
Definition matches (k v : string) (e : Entry) : Prop := metadata e !! k = Some v.

Global Instance matches_dec k v e : Decision (matches k v e).
Proof. unfold matches. apply _. Defined.

(** Order of the hits of a query [q]: by distance of the document to [q]. *)
Definition closer (dist : string → string → nat) (q : string) (a b : Entry) : Prop :=
  dist q (document a) ≤ dist q (document b).

Global Instance closer_dec dist q : RelDecision (closer dist q).
Proof. intros a b. unfold closer. apply _. Defined.

(** [collection.get()['ids']] *)
Definition get_ids (store : list Entry) : list string := id <$> store.

(** [collection.delete(ids=ids)] *)
Definition delete (ids : list string) (store : list Entry) : list Entry :=
  filter (λ e, id e ∉ ids) store.

Fixpoint zip3 (docs ids : list string) (metas : list (gmap string string)) : list Entry :=
  match docs, ids, metas with
  | d :: docs', i :: ids', m :: metas' => mkEntry i d m :: zip3 docs' ids' metas'
  | _, _, _ => []
  end.

(** [collection.add(documents=docs, ids=ids, metadatas=metas)] *)
Definition add (docs ids : list string) (metas : list (gmap string string))
    (store : list Entry) : list Entry :=
  store ++ zip3 docs ids metas.

(** The entries a [query] selects: those passing the [where] filter, ordered
    by distance of their document to the query text, the [n] nearest kept.
    [dist] stands for the embedding distance. *)
Definition nearest (dist : string → string → nat) (q : string) (n : nat)
    (k v : string) (store : list Entry) : list Entry :=
  take n (merge_sort (closer dist q) (filter (matches k v) store)).

(** [results['documents']]: one list of document texts per query text. *)
Definition query_documents (dist : string → string → nat) (q : string) (n : nat)
    (k v : string) (store : list Entry) : list (list string) :=
  [document <$> nearest dist q n k v store].

End Chroma.

(** ** The relational tables of [database.py]

    [sessions] is keyed by its primary key [id]; [messages] is the message
    log, kept in insertion order.  In which order a SELECT without ORDER BY
    returns rows of the log is up to the backend ([select_order] below).  The
    timestamp columns and the autoincrement message id are not read by any
    modelled endpoint and are left out. *)
Module Orm.

Record User : Type := mkUser {
  user_pk : Z;
  email : string;
  user_role : string
}.

Record ChatSession : Type := mkSession {
  user_id : Z;
  title : string
}.

Record ChatMessage : Type := mkMessage {
  session_id : string;
  role : string;
  content : string
}.

Record Db : Type := mkDb {
  sessions : gmap string ChatSession;
  messages : list ChatMessage
}.

(** [db.query(ChatSession).filter(ChatSession.id == sid,
    ChatSession.user_id == uid).first()] *)
Definition first_session (sid : string) (uid : Z) (d : Db) : option ChatSession :=
  match sessions d !! sid with
  | Some s => if bool_decide (user_id s = uid) then Some s else None
  | None => None
  end.

(** [DELETE FROM sessions WHERE user_id = uid] *)
Definition sessions_not_of (uid : Z) (m : gmap string ChatSession) : gmap string ChatSession :=
  filter (λ kv, user_id kv.2 ≠ uid) m.

(** Does some message row reference a session owned by [uid]? *)
Definition referenced (uid : Z) (d : Db) : bool :=
  existsb (λ m, match sessions d !! session_id m with
                | Some s => bool_decide (user_id s = uid)
                | None => false
                end) (messages d).

(** ORM cascade ["all, delete-orphan"] of [ChatSession.messages]: the rows
    [db.delete(session)] removes together with session [sid]. *)
Definition cascade_delete (sid : string) (d : Db) : Db :=
  mkDb (base.delete sid (sessions d))
       (filter (λ m, session_id m ≠ sid) (messages d)).

End Orm.

(** ** The environment the program runs in *)

(** A role-tagged message: the dicts sent to the completion API and the
    [MessageParam] entries of a chat request. *)
Record Msg : Type := mkMsg {
  msg_role : string;
  msg_content : string
}.

(** One entry of the [results] list of a Tavily reply. *)
Record WebResult : Type := mkWebResult {
  web_title : string;
  web_content : string
}.

Inductive ChromaOp : Type :=
| OpQuery (q : string)
| OpGet
| OpDelete
| OpAdd.

Record World : Type := mkWorld {
  (** module-level [collection] is not [None] *)
  collection_enabled : bool;
  (** module-level [tavily] is not [None] *)
  tavily_enabled : bool;
  (** [mistral_client.chat.complete_async(model, messages, temperature)],
      read up to [response.choices[0].message.content] *)
  mistral : string → list Msg → float → result string;
  (** [tavily.search(query, max_results=3, search_depth="advanced")],
      read up to [results.get('results', [])] *)
  tavily_search : string → result (list WebResult);
  (** distance between the embeddings of a query text and a document *)
  embed_distance : string → string → nat;
  (** the exception, if any, a collection call ends in *)
  chroma_fault : ChromaOp → option exn;
  (** [PdfReader(io.BytesIO(data)).pages], each read by [extract_text()] *)
  pdf_pages : list byte → result (list string);
  (** the stream of [str(uuid.uuid4())] values *)
  uuid4 : nat → string;
  (** [datetime.date.today()] as interpolated in an f-string *)
  today : string;
  (** whether the SQL backend enforces foreign keys (PostgreSQL does, SQLite
      as configured in [database.py] does not) *)
  fk_enforced : bool;
  (** the order in which the SQL backend returns the rows that match a
      SELECT without ORDER BY: the matching rows, rearranged as it sees fit *)
  select_order : list Orm.ChatMessage → list Orm.ChatMessage;
  select_order_perm : ∀ rows, select_order rows ≡ₚ rows
}.

Record State : Type := mkState {
  index : list Chroma.Entry;
  db : Orm.Db;
  uuid_counter : nat
}.

(** Requests sent to the completion and retrieval services. *)
Inductive Call : Type :=
| CallLlm (model : string) (messages : list Msg) (temperature : float)
| CallWebSearch (query : string)
| CallIndexQuery (query user : string) (reply : result (list (list string))).

Definition is_web_call (c : Call) : bool :=
  match c with
  | CallWebSearch _ => true
  | _ => false
  end.

Definition is_llm_call (c : Call) : bool :=
  match c with
  | CallLlm _ _ _ => true
  | _ => false
  end.

Definition is_index_call (c : Call) : bool :=
  match c with
  | CallIndexQuery _ _ _ => true
  | _ => false
  end.

(** The index search answered with at least one non-empty document text. *)
Definition is_index_hit (c : Call) : bool :=
  match c with
  | CallIndexQuery _ _ (Ok (docs :: _)) => existsb Py.truthy docs
  | _ => false
  end.

(** ** The monad: reader of the world, state, exceptions, trace *)

Definition M (A : Type) : Type := World → State → result A * State * list Call.

Global Instance M_ret : MRet M := λ A a _ s, (Ok a, s, []).

Global Instance M_bind : MBind M := λ A B k m w s,
  match m w s with
  | (Ok a, s1, t1) => let '(r, s2, t2) := k a w s1 in (r, s2, t1 ++ t2)
  | (Raise e, s1, t1) => (Raise e, s1, t1)
  end.

Definition raise {A} (e : exn) : M A := λ _ s, (Raise e, s, []).

(** [try: body  except Exception as e: handler e].  The state reached when
    the exception was raised is kept. *)
Definition try_except {A} (body : M A) (handler : exn → M A) : M A := λ w s,
  match body w s with
  | (Raise e, s1, t1) => let '(r, s2, t2) := handler e w s1 in (r, s2, t1 ++ t2)
  | ok => ok
  end.

Definition world : M World := λ w s, (Ok w, s, []).
Definition get_state : M State := λ _ s, (Ok s, s, []).
Definition put_state (s : State) : M unit := λ _ _, (Ok tt, s, []).
Definition emit (c : Call) : M unit := λ _ s, (Ok tt, s, [c]).
Definition lift_result {A} (r : result A) : M A := λ _ s, (r, s, []).

Definition set_index (ix : list Chroma.Entry) : M unit :=
  s ← get_state; put_state (mkState ix (db s) (uuid_counter s)).

Definition set_db (d : Orm.Db) : M unit :=
  s ← get_state; put_state (mkState (index s) d (uuid_counter s)).

Definition outcome {A} (x : result A * State * list Call) : result A := x.1.1.
Definition final {A} (x : result A * State * list Call) : State := x.1.2.
Definition trace {A} (x : result A * State * list Call) : list Call := x.2.

(** ** Calls to the external services *)

Definition complete_async (model : string) (messages : list Msg) (temperature : float)
    : M string :=
  w ← world;
  emit (CallLlm model messages temperature);;
  lift_result (mistral w model messages temperature).

Definition tavily_search_call (query : string) : M (list WebResult) :=
  w ← world;
  emit (CallWebSearch query);;
  lift_result (tavily_search w query).

Definition fault_or {A} (w : World) (op : ChromaOp) (a : A) : result A :=
  match chroma_fault w op with
  | Some e => Raise e
  | None => Ok a
  end.

Definition collection_query (q : string) (n : nat) (k v : string) : M (list (list string)) :=
  w ← world;
  s ← get_state;
  let reply := fault_or w (OpQuery q)
                 (Chroma.query_documents (embed_distance w) q n k v (index s)) in
  emit (CallIndexQuery q v reply);;
  lift_result reply.

Definition collection_get_ids : M (list string) :=
  w ← world;
  s ← get_state;
  lift_result (fault_or w OpGet (Chroma.get_ids (index s))).

Definition collection_delete (ids : list string) : M unit :=
  w ← world;
  s ← get_state;
  lift_result (fault_or w OpDelete tt);;
  set_index (Chroma.delete ids (index s)).

Definition collection_add (docs ids : list string) (metas : list (gmap string string))
    : M unit :=
  w ← world;
  s ← get_state;
  lift_result (fault_or w OpAdd tt);;
  set_index (Chroma.add docs ids metas (index s)).

Definition read_pdf (data : list byte) : M (list string) :=
  w ← world;
  lift_result (pdf_pages w data).

(** [[str(uuid.uuid4()) for _ in range(n)]] *)
Definition fresh_uuids (n : nat) : M (list string) :=
  w ← world;
  s ← get_state;
  put_state (mkState (index s) (db s) (uuid_counter s + n));;
  mret ((λ k, uuid4 w (uuid_counter s + k)) <$> seq 0 n).

(** ** [engine.py] *)

Definition intent_greetings : list string := ["hi"; "hello"; "hey"; "sup"; "how are you"].

Definition intent_prompt (user_query : string) : string :=
  Py.join Py.nl
    [ "";
      "    Classify the intent of this user query:";
      "    1. WEB: Current events, news, or facts not in a private doc.";
      "    2. PDF: Specific questions about files, documents, or uploaded content.";
      "    3. CHAT: Greetings, coding, math, or general conversation.";
      "    Query: " +:+ Py.dquote +:+ user_query +:+ Py.dquote;
      "    Output ONLY one word: WEB, PDF, or CHAT";
      "    " ].

Definition determine_intent (user_query : string) : M string :=
  if bool_decide (Py.strip (Py.lower user_query) ∈ intent_greetings) then mret "CHAT"
  else
    let prompt := intent_prompt user_query in
    try_except
      (content ← complete_async "mistral-small-latest" [mkMsg "user" prompt] 0%float;
       let intent := Py.upper (Py.strip content) in
       mret (if bool_decide (intent ∈ ["WEB"; "PDF"]) then intent else "CHAT"))
      (λ _, mret "CHAT").

Definition web_block (r : WebResult) : string :=
  "Source: " +:+ web_title r +:+ Py.nl +:+
  "Content: " +:+ Py.slice (web_content r) 0 400 +:+ Py.nl +:+ "---" +:+ Py.nl.

Definition _search_web_sync (query : string) : M string :=
  w ← world;
  if negb (tavily_enabled w) then mret ""
  else
    try_except
      (results ← tavily_search_call query;
       mret (foldl (λ context r, context +:+ web_block r) "" results))
      (λ _, mret "").

(** [user_id] arrives as a [str]; the [str(user_id)] of the [where] clause
    leaves it as it is. *)
Definition _search_pdf_sync (query user_id : string) : M (option string) :=
  w ← world;
  if negb (collection_enabled w) then mret None
  else
    try_except
      (documents ← collection_query query 5 "user_id" user_id;
       mret (match documents with
             | docs0 :: _ => if 0 <? length docs0 then Some (Py.join Py.nl docs0) else None
             | [] => None
             end))
      (λ _, mret None).

Definition clear_all_sync : M bool :=
  try_except
    (w ← world;
     if collection_enabled w then
       all_ids ← collection_get_ids;
       match all_ids with
       | _ :: _ => collection_delete all_ids;; mret true
       | [] => mret false
       end
     else mret false)
    (λ _, mret false).

Definition reset_memory : M bool := clear_all_sync.

Definition agent_greetings : list string := ["hi"; "hello"; "hey"].

(** Lines 131-148 of [run_agent]: the retrieval decisions, ending in
    [(context_data, source_label)]. *)
Definition resolve_context (query intent : string) (use_web : bool) (user_id : Z)
    : M (string * string) :=
  w ← world;
  let is_greeting := bool_decide (Py.strip (Py.lower query) ∈ agent_greetings) in
  if is_greeting then mret ("", "General Knowledge")
  else
    '(context_data, source_label) ←
      (if bool_decide (intent = "PDF")
          || (bool_decide (intent = "CHAT") && collection_enabled w)
       then
         pdf_data ← _search_pdf_sync query (Py.str_int user_id);
         match pdf_data with
         | Some data => if Py.truthy data then mret (data, "Uploaded Document")
                        else mret ("", "General Knowledge")
         | None => mret ("", "General Knowledge")
         end
       else mret ("", "General Knowledge"));
    if negb (Py.truthy context_data) && use_web
       && (bool_decide (intent = "WEB") || bool_decide (intent = "PDF"))
    then
      web_data ← _search_web_sync query;
      if Py.truthy web_data then mret (web_data, "Web Search")
      else mret (context_data, source_label)
    else mret (context_data, source_label).

Definition default_persona : string := "You are Avii Pro, a helpful AI assistant.".

(** Line 151 of [run_agent]. *)
Definition base_persona (system_instruction : option string) : string :=
  match system_instruction with
  | Some s => if Py.truthy s && (5 <? Py.len s) then s else default_persona
  | None => default_persona
  end.

Definition final_system_prompt (persona date source_label context_data : string) : string :=
  Py.join Py.nl
    [ "";
      "    " +:+ persona;
      "    ";
      "    CONTEXTUAL INFORMATION:";
      "    - Current Date: " +:+ date;
      "    - Context Source: " +:+ source_label;
      "    - Retrieved Context: " +:+
        (if Py.truthy context_data then context_data else "None (Use internal knowledge)");
      "    ";
      "    GUIDELINES:";
      "    - If context is provided, prioritize it for your answer.";
      "    - If the user asks for code, provide clean, commented code.";
      "    - If the user asks for math, use LaTeX formatting.";
      "    " ].

(** Lines 169-172 of [run_agent]: the messages of the completion request. *)
Definition completion_messages (system_prompt : string) (history : list Msg) (query : string)
    : list Msg :=
  [mkMsg "system" system_prompt]
  ++ ((λ h, mkMsg (msg_role h) (msg_content h)) <$> history)
  ++ [mkMsg "user" query].

(** Lines 168-185 of [run_agent]: the completion request and its handler. *)
Definition complete_or_error (system_prompt : string) (history : list Msg)
    (query source_label : string) (temperature : float) : M (string * string) :=
  try_except
    (let msgs := completion_messages system_prompt history query in
     text ← complete_async "mistral-large-latest" msgs temperature;
     mret (text, source_label))
    (λ e, mret ("I encountered an error: " +:+ str_exn e, "Error")).

Definition run_agent (query : string) (history : list Msg) (use_web : bool)
    (user_id : Z) (system_instruction : option string) (temperature : float)
    : M (string * string) :=
  intent ← determine_intent query;
  '(context_data, source_label) ← resolve_context query intent use_web user_id;
  w ← world;
  let prompt := final_system_prompt (base_persona system_instruction) (today w)
                                    source_label context_data in
  complete_or_error prompt history query source_label temperature.

(** [[text[i:i+1000] for i in range(0, len(text), 800)]] *)
Definition chunk_text (text : string) : list string :=
  (λ i, Py.slice text i (i + 1000)) <$> Py.range 0 (Py.len text) 800.

(** [[page.extract_text() + "\n" for page in pdf.pages if page.extract_text()]],
    joined. *)
Definition extracted_text (pages : list string) : string :=
  Py.join "" ((λ p, p +:+ Py.nl) <$> filter (λ p, Py.truthy p = true) pages).

Definition chunk_metadata (user_id : Z) (filename : string) : gmap string string :=
  {[ "user_id" := Py.str_int user_id; "filename" := filename ]}.

Definition parse_chunk_sync (file_content : list byte) (filename : string) (user_id : Z)
    : M nat :=
  try_except
    (pages ← read_pdf file_content;
     let text := extracted_text pages in
     if negb (Py.truthy (Py.strip text)) then mret 0
     else
       let chunks := chunk_text text in
       ids ← fresh_uuids (length chunks);
       let metadatas := replicate (length chunks) (chunk_metadata user_id filename) in
       collection_add chunks ids metadatas;;
       mret (length chunks))
    (λ _, mret 0).

Definition ingest_pdf (file_content : list byte) (filename : string) (user_id : Z) : M nat :=
  w ← world;
  if negb (collection_enabled w) then mret 0
  else parse_chunk_sync file_content filename user_id.

(** ** SQL statements issued through the ORM session

    Each definition stands for the statement together with the [db.commit()]
    that follows it in the source. *)

Definition integrity_error : exn := Exception "IntegrityError".

Definition db_first_session (sid : string) (uid : Z) : M (option Orm.ChatSession) :=
  s ← get_state;
  mret (Orm.first_session sid uid (db s)).

(** [db.add(ChatSession(id=sid, ...)); db.commit()]: the primary key must be
    free. *)
Definition db_add_session (sid : string) (row : Orm.ChatSession) : M unit :=
  s ← get_state;
  match Orm.sessions (db s) !! sid with
  | Some _ => raise integrity_error
  | None => set_db (Orm.mkDb (<[sid := row]> (Orm.sessions (db s))) (Orm.messages (db s)))
  end.

(** [db.add(ChatMessage(...)); db.commit()]: where foreign keys are enforced
    the referenced session must exist. *)
Definition db_add_message (m : Orm.ChatMessage) : M unit :=
  w ← world;
  s ← get_state;
  if fk_enforced w && negb (bool_decide (is_Some (Orm.sessions (db s) !! Orm.session_id m)))
  then raise integrity_error
  else set_db (Orm.mkDb (Orm.sessions (db s)) (Orm.messages (db s) ++ [m])).

(** [db.delete(session); db.commit()]: the unit of work loads the session's
    [messages] relationship and deletes those rows first (cascade
    ["all, delete-orphan"]). *)
Definition db_delete_session (sid : string) : M unit :=
  s ← get_state;
  set_db (Orm.cascade_delete sid (db s)).

(** [db.query(ChatSession).filter(ChatSession.user_id == uid)
       .delete(synchronize_session=False); db.commit()]:
    one [DELETE FROM sessions WHERE user_id = uid] statement.  A bulk delete
    does not go through the unit of work, so no relationship cascade runs; the
    [messages.session_id] foreign key is declared without [ON DELETE], so an
    enforcing backend rejects the statement when a message still references
    one of the rows, and a non-enforcing one leaves the messages in place. *)
Definition db_bulk_delete_sessions (uid : Z) : M unit :=
  w ← world;
  s ← get_state;
  if fk_enforced w && Orm.referenced uid (db s)
  then raise integrity_error
  else set_db (Orm.mkDb (Orm.sessions_not_of uid (Orm.sessions (db s)))
                        (Orm.messages (db s))).

(** ** [main.py] *)

Record ChatRequest : Type := mkChatRequest {
  req_session_id : string;
  req_query : string;
  req_history : list Msg;
  req_use_web : bool;
  req_system_instruction : option string;
  req_temperature : float
}.

Record ChatResponse : Type := mkChatResponse {
  response : string;
  source : string;
  resp_session_id : string
}.

Record StatusReply : Type := mkStatusReply {
  status : string;
  message : string
}.

(** The signature of [ai_engine.run_agent]. *)
Definition Agent : Type :=
  string → list Msg → bool → Z → option string → float → M (string * string).

(** Line 198 of [chat_endpoint]: the last six turns, re-tagged. *)
Definition history_fmt (req : ChatRequest) : list Msg :=
  (λ m, mkMsg (if bool_decide (msg_role m = "user") then "user" else "assistant")
              (msg_content m)) <$> Py.last_n 6 (req_history req).

(** Lines 182-191 of [chat_endpoint]: look the session up, create it when the
    caller has none under that id. *)
Definition ensure_session (req : ChatRequest) (current_user : Orm.User) : M unit :=
  session ← db_first_session (req_session_id req) (Orm.user_pk current_user);
  match session with
  | None =>
      let title_summary := Py.slice (req_query req) 0 30 +:+ "..." in
      db_add_session (req_session_id req)
                     (Orm.mkSession (Orm.user_pk current_user) title_summary)
  | Some _ => mret tt
  end.

(** An engine entry point that does not write to the relational tables. *)
Definition preserves_db (agent : Agent) : Prop :=
  ∀ q h use_web uid si t w s, db (final (agent q h use_web uid si t w s)) = db s.

(** [chat_endpoint], with the engine entry point it awaits as a parameter. *)
Definition chat_endpoint_with (agent : Agent) (req : ChatRequest) (current_user : Orm.User)
    : M ChatResponse :=
  ensure_session req current_user;;
  db_add_message (Orm.mkMessage (req_session_id req) "user" (req_query req));;
  '(response_text, source_type) ←
    try_except
      (agent (req_query req) (history_fmt req) (req_use_web req) (Orm.user_pk current_user)
             (req_system_instruction req) (req_temperature req))
      (λ e, mret ("I'm having trouble thinking right now. Error: " +:+ str_exn e, "Error"));
  db_add_message (Orm.mkMessage (req_session_id req) "model" response_text);;
  mret (mkChatResponse response_text source_type (req_session_id req)).

Definition chat_endpoint : ChatRequest → Orm.User → M ChatResponse :=
  chat_endpoint_with run_agent.

Definition delete_session (session_id : string) (current_user : Orm.User) : M StatusReply :=
  session ← db_first_session session_id (Orm.user_pk current_user);
  match session with
  | Some _ =>
      db_delete_session session_id;;
      mret (mkStatusReply "success" "Chat deleted")
  | None => raise (HTTPException 404 "Not found")
  end.

(** [db.rollback()] in the handler undoes nothing here: a statement that
    raised changed no row, and what was committed stays. *)
Definition reset_db (current_user : Orm.User) : M StatusReply :=
  try_except
    (db_bulk_delete_sessions (Orm.user_pk current_user);;
     reset_memory;;
     mret (mkStatusReply "success" "History and PDF Memory cleared!"))
    (λ e, raise (HTTPException 500 (str_exn e))).

(** ** The chunk count as the specification words it *)

Definition ceil_div (a b : nat) : nat := (a + (b - 1)) / b.

(** "ceil((L-1000)/800)+1 when L>1000, else exactly 1 (for L>0), else 0" *)
Definition spec_chunk_count (L : nat) : nat :=
  if 1000 <? L then ceil_div (L - 1000) 800 + 1
  else if 0 <? L then 1
  else 0.

(** ** Sample worlds and stores *)
Module Demo.

Definition repeat_char (n : nat) (c : ascii) : string :=
  string_of_list_ascii (replicate n c).

(** The classifier model answers [intent], the completion model [completion]. *)
Definition llm (intent completion : result string) : string → list Msg → float → result string :=
  λ model _ _, if String.eqb model "mistral-small-latest" then intent else completion.

Definition make (intent completion : result string) (pages : list string) (fk : bool) : World :=
  mkWorld true true (llm intent completion)
          (λ _, Ok [mkWebResult "Rates" "Rates were held."])
          (λ _ d, String.length d)
          (λ _, None)
          (λ _, Ok pages)
          (λ n, "uuid-" +:+ pretty n)
          "2025-01-01"
          fk
          (λ rows, rows)
          (λ rows, Permutation_refl rows).

Definition chatty : World := make (Ok "CHAT") (Ok "Sure.") [] false.
Definition pdf_minded : World := make (Ok " pdf ") (Ok "Sure.") [] false.
Definition llm_down : World :=
  make (Raise (Exception "timeout")) (Raise (Exception "timeout")) [] false.
Definition sqlite : World := chatty.
Definition postgres : World := make (Ok "CHAT") (Ok "Sure.") [] true.

Definition alice : Z := 7.
Definition bob : Z := 8.

Definition no_db : Orm.Db := Orm.mkDb ∅ [].
Definition empty : State := mkState [] no_db 0.

Definition alice_chunk : Chroma.Entry :=
  Chroma.mkEntry "uuid-0" "The contract ends in May." (chunk_metadata alice "contract.pdf").
Definition bob_chunk : Chroma.Entry :=
  Chroma.mkEntry "uuid-1" "Salary table." (chunk_metadata bob "pay.pdf").

Definition two_users : State := mkState [alice_chunk; bob_chunk] no_db 2.

(** Alice owns session "s1", which holds one message. *)
Definition one_session : Orm.Db :=
  Orm.mkDb {[ "s1" := Orm.mkSession alice "hello..." ]}
           [Orm.mkMessage "s1" "user" "hello"].
Definition chatted : State := mkState [] one_session 0.

Definition alice_user : Orm.User := Orm.mkUser alice "alice@example.org" "user".

Definition hello_request : ChatRequest :=
  mkChatRequest "s2" "What is new?" [] false None 0.5%float.

(** An engine entry point that raises. *)
Definition failing_agent : Agent := λ _ _ _ _ _ _, raise (Exception "boom").

End Demo.

Arguments chunk_text : simpl never.
Arguments extracted_text : simpl never.
Arguments chunk_metadata : simpl never.
Arguments intent_prompt : simpl never.
Arguments final_system_prompt : simpl never.
Arguments completion_messages : simpl never.
Arguments base_persona : simpl never.
Arguments Py.strip : simpl never.
Arguments Py.lower : simpl never.
Arguments Py.upper : simpl never.
Arguments Py.truthy : simpl never.
Arguments Py.join : simpl never.
Arguments Py.str_int : simpl never.
Arguments Chroma.add : simpl never.
Arguments Chroma.delete : simpl never.
Arguments Chroma.get_ids : simpl never.
Arguments Chroma.nearest : simpl never.
Arguments Chroma.query_documents : simpl never.
Arguments history_fmt : simpl never.
Arguments Py.slice : simpl never.
Arguments _search_pdf_sync : simpl never.
Arguments _search_web_sync : simpl never.
Arguments determine_intent : simpl never.
Arguments resolve_context : simpl never.

(** ** The remaining endpoints of [main.py] over sessions, messages and uploads *)

(** The role and content of the messages a session has in the message log,
    listed in the order of the log. *)
Definition session_history (session_id : string) (d : Orm.Db) : list Msg :=
  (λ m, mkMsg (Orm.role m) (Orm.content m))
    <$> filter (λ m, Orm.session_id m = session_id) (Orm.messages d).

(** [db.query(ChatMessage).filter(ChatMessage.session_id == session_id).all()]:
    the query has no ORDER BY, so the rows come in the order the backend
    chooses. *)
Definition db_session_messages (session_id : string) : M (list Orm.ChatMessage) :=
  w ← world;
  s ← get_state;
  mret (select_order w (filter (λ m, Orm.session_id m = session_id) (Orm.messages (db s)))).

Definition get_history (session_id : string) (current_user : Orm.User) : M (list Msg) :=
  session ← db_first_session session_id (Orm.user_pk current_user);
  match session with
  | None => raise (HTTPException 404 "Session not found")
  | Some _ =>
      msgs ← db_session_messages session_id;
      mret ((λ m, mkMsg (Orm.role m) (Orm.content m)) <$> msgs)
  end.

(** A FastAPI [UploadFile]: its name and what [await file.read()] gives. *)
Record UploadFile : Type := mkUploadFile {
  upload_filename : string;
  upload_read : result (list byte)
}.

Record UploadReply : Type := mkUploadReply {
  upload_status : string;
  chunks_indexed : nat
}.

Definition upload_pdf (file : UploadFile) (current_user : Orm.User) : M UploadReply :=
  try_except
    (content ← lift_result (upload_read file);
     chunks_count ← ingest_pdf content (upload_filename file) (Orm.user_pk current_user);
     mret (mkUploadReply "success" chunks_count))
    (λ e, raise (HTTPException 500 (str_exn e))).

(** ** [database.py]: the connection string *)

(** [s.startswith(prefix)] *)
Definition startswith (s prefix : string) : bool := String.prefix prefix s.

(** [s[n:]] *)
Fixpoint drop_chars (n : nat) (s : string) : string :=
  match n, s with
  | S n', String _ s' => drop_chars n' s'
  | _, _ => s
  end.

(** [s.replace(old, new, 1)]: the leftmost occurrence of [old] is replaced. *)
Fixpoint replace_first (old new s : string) : string :=
  if String.prefix old s then new +:+ drop_chars (String.length old) s
  else match s with
       | EmptyString => EmptyString
       | String c s' => String c (replace_first old new s')
       end.

(** Lines 14-15 of [database.py], applied to the value of [DATABASE_URL]. *)
Definition normalize_database_url (url : string) : string :=
  if Py.truthy url && startswith url "postgres://"
  then replace_first "postgres://" "postgresql://" url
  else url.

(** ** [auth.py] and the account endpoints of [main.py] *)
Module Auth.

(** A row of the [users] table. *)
Record Account : Type := mkAccount {
  acc_id : Z;
  acc_email : string;
  hashed_password : string;
  is_active : bool;
  acc_role : string
}.

(** A value of a JWT payload: a string claim or a [datetime], counted in
    microseconds, the resolution of [datetime] and [timedelta]. *)
Inductive Claim : Type :=
| ClaimStr (s : string)
| ClaimTime (t : Z).

(** What [id_token.verify_oauth2_token(...)], read up to [id_info['email']],
    ends in. *)
Inductive GoogleResult : Type :=
| GoogleEmail (email : string)
| GoogleValueError
| GoogleError (e : exn).

(** The libraries the account code calls: passlib, python-jose, google-auth,
    the clock and the [ADMIN_EMAIL] setting. *)
Record Env : Type := mkEnv {
  (** [pwd_context.hash(password)] *)
  pwd_hash : string → result string;
  (** [pwd_context.verify(plain, hashed)]; passlib raises on a stored value
      it does not recognise as a hash *)
  pwd_verify : string → string → result bool;
  jwt_encode : gmap string Claim → string;
  (** [None] stands for a [JWTError] *)
  jwt_decode : string → option (gmap string Claim);
  google_verify : string → GoogleResult;
  (** [datetime.utcnow()] *)
  utcnow : Z;
  (** the [ADMIN_EMAIL] setting *)
  admin_email : string
}.

(** [db.query(User).filter(User.email == email).first()] *)
Definition find_by_email (email : string) (users : list Account) : option Account :=
  head (filter (λ u, acc_email u = email) users).

(** The primary key the backend gives a new row: one past the largest. *)
Definition next_id (users : list Account) : Z :=
  1 + foldr (λ u m, Z.max (acc_id u) m) 0%Z users.

(** [timedelta(minutes=15)], in microseconds. *)
Definition default_lifetime : Z := 15 * 60 * 1000000.

(** The payload [create_access_token(data, expires_delta)] signs: [data] with
    ["exp"] set to the expiry.  A [timedelta] is truthy when it is not zero. *)
Definition access_payload (env : Env) (data : gmap string Claim)
    (expires_delta : option Z) : gmap string Claim :=
  let expire :=
    match expires_delta with
    | Some d => if bool_decide (d ≠ 0%Z) then (utcnow env + d)%Z
                else (utcnow env + default_lifetime)%Z
    | None => (utcnow env + default_lifetime)%Z
    end in
  <["exp" := ClaimTime expire]> data.

Definition create_access_token (env : Env) (data : gmap string Claim)
    (expires_delta : option Z) : string :=
  jwt_encode env (access_payload env data expires_delta).

Definition credentials_exception : exn := HTTPException 401 "Could not validate credentials".

Definition get_current_user (env : Env) (token : string) (users : list Account)
    : result Account :=
  match jwt_decode env token with
  | None => Raise credentials_exception
  | Some payload =>
      match payload !! "sub" with
      | None => Raise credentials_exception
      | Some (ClaimStr email) =>
          match find_by_email email users with
          | Some user => Ok user
          | None => Raise credentials_exception
          end
      | Some (ClaimTime _) => Raise credentials_exception
      end
  end.

Record TokenReply : Type := mkTokenReply {
  access_token : string;
  token_type : string;
  reply_role : string
}.

Definition register (env : Env) (email password : string) (users : list Account)
    : result string * list Account :=
  match find_by_email email users with
  | Some _ => (Raise (HTTPException 400 "Email already registered"), users)
  | None =>
      match pwd_hash env password with
      | Raise e => (Raise e, users)
      | Ok hashed_pw =>
          let new_user := mkAccount (next_id users) email hashed_pw true "user" in
          (Ok "User created successfully", users ++ [new_user])
      end
  end.

Definition login (env : Env) (username password : string) (users : list Account)
    : result TokenReply :=
  match find_by_email username users with
  | Some user =>
      match pwd_verify env password (hashed_password user) with
      | Raise e => Raise e
      | Ok true =>
          let token := create_access_token env {[ "sub" := ClaimStr (acc_email user) ]} None in
          Ok (mkTokenReply token "bearer" (acc_role user))
      | Ok false => Raise (HTTPException 401 "Incorrect email or password")
      end
  | None => Raise (HTTPException 401 "Incorrect email or password")
  end.

(** [user.role = "admin"; db.commit()] on the row with that primary key. *)
Definition set_admin (uid : Z) (users : list Account) : list Account :=
  (λ u, if bool_decide (acc_id u = uid)
        then mkAccount (acc_id u) (acc_email u) (hashed_password u) (is_active u) "admin"
        else u) <$> users.

Definition google_login (env : Env) (token : string) (users : list Account)
    : result (TokenReply * string) * list Account :=
  match google_verify env token with
  | GoogleValueError => (Raise (HTTPException 400 "Invalid Google Token"), users)
  | GoogleError e => (Raise (HTTPException 400 (str_exn e)), users)
  | GoogleEmail email =>
      let '(user, users') :=
        match find_by_email email users with
        | None =>
            let role := if bool_decide (email = admin_email env) then "admin" else "user" in
            let user := mkAccount (next_id users) email "GOOGLE_LOGIN_USER" true role in
            (user, users ++ [user])
        | Some user =>
            if bool_decide (email = admin_email env) && negb (bool_decide (acc_role user = "admin"))
            then (mkAccount (acc_id user) (acc_email user) (hashed_password user)
                            (is_active user) "admin",
                  set_admin (acc_id user) users)
            else (user, users)
        end in
      let access_token := create_access_token env {[ "sub" := ClaimStr (acc_email user) ]} None in
      (Ok (mkTokenReply access_token "bearer" (acc_role user), acc_email user), users')
  end.

(** An account after [user.role = "admin"]. *)
Definition promoted (u : Account) : Account :=
  mkAccount (acc_id u) (acc_email u) (hashed_password u) (is_active u) "admin".

(** The accounts table as the code keeps it: one row per email, one per key. *)
Definition well_formed (users : list Account) : Prop :=
  NoDup (acc_email <$> users) ∧ NoDup (acc_id <$> users).

End Auth.

(** What an entry stored by [ingest_pdf] for [user_id] and [filename] looks
    like: a chunk of 1 to 1000 characters under that metadata. *)
Definition ingested_by (user_id : Z) (filename : string) (e : Chroma.Entry) : Prop :=
  1 ≤ Py.len (Chroma.document e) ≤ 1000 ∧ Chroma.metadata e = chunk_metadata user_id filename.

(** ** Counting requests *)

(** The number of requests in a trace that satisfy [P]. *)
Definition calls (P : Call → bool) (t : list Call) : nat := length (List.filter P t).

Definition source_labels : list string :=
  ["General Knowledge"; "Uploaded Document"; "Web Search"; "Error"].

(** ** More sample worlds *)
Module Sample.

(** The classifier answers "WEB". *)
Definition web_minded : World := Demo.make (Ok "WEB") (Ok "Sure.") [] false.

(** Every call to the collection raises. *)
Definition index_down : World :=
  mkWorld true true (Demo.llm (Ok "CHAT") (Ok "Sure."))
          (λ _, Ok [])
          (λ _ d, String.length d)
          (λ _, Some (Exception "index unavailable"))
          (λ _, Ok ["Some text."])
          (λ n, "uuid-" +:+ pretty n)
          "2025-01-01"
          false
          (λ rows, rows)
          (λ rows, Permutation_refl rows).

(** Tokens that carry their subject in the clear; passwords hashed by a prefix. *)
Definition plain_env : Auth.Env :=
  Auth.mkEnv (λ p, Ok ("hash:" +:+ p))
             (λ p h, if String.prefix "hash:" h then Ok (String.eqb h ("hash:" +:+ p))
                     else Raise (Exception "hash could not be identified"))
             (λ payload, match payload !! "sub" with
                         | Some (Auth.ClaimStr e) => e
                         | _ => ""
                         end)
             (λ t, Some {[ "sub" := Auth.ClaimStr t ]})
             (λ t, if String.eqb t "bad" then Auth.GoogleValueError else Auth.GoogleEmail t)
             1000%Z
             "root@example.org".

(** A reader that finds one page of text in every file. *)
Definition one_page : World := Demo.make (Ok "CHAT") (Ok "Sure.") ["Hello world."] false.

Definition bob_user : Orm.User := Orm.mkUser Demo.bob "bob@example.org" "user".

(** A request on session "s1". *)
Definition s1_request : ChatRequest :=
  mkChatRequest "s1" "And then?" [] false None 0.5%float.

(** A backend that returns the rows of an unordered SELECT newest first. *)
Definition newest_first : World :=
  mkWorld true true (Demo.llm (Ok "CHAT") (Ok "Sure."))
          (λ _, Ok [])
          (λ _ d, String.length d)
          (λ _, None)
          (λ _, Ok [])
          (λ n, "uuid-" +:+ pretty n)
          "2025-01-01"
          false
          reverse
          reverse_Permutation.

(** The no-break space U+00A0, which [str.strip()] removes. *)
Definition nbsp : string := String "160"%char EmptyString.

End Sample.

(** * Properties *)

Ltac run_monad :=
  unfold outcome, final, trace, mbind, M_bind, mret, M_ret, try_except, raise, world,
    get_state, put_state, emit, lift_result, set_index, set_db; simpl.

(** ** Strings, ranges and chunks *)

(** The code points [str.strip()] removes, and the ones [str.lower()] and
    [str.upper()] change, among U+0000 to U+00FF. *)
Example whitespace_code_points :
  filter (λ n, Py.is_space (ascii_of_nat n) = true) (seq 0 256)
    = [9; 10; 11; 12; 13; 28; 29; 30; 31; 32; 133; 160].
Proof. by vm_compute. Qed.

Example lower_code_points :
  let changed := filter (λ n, Py.code (Py.lower_char (ascii_of_nat n)) ≠ n) (seq 0 256) in
  changed = seq 65 26 ++ seq 192 23 ++ seq 216 7 ∧
  (λ n, Py.code (Py.lower_char (ascii_of_nat n))) <$> changed = (λ n, n + 32) <$> changed.
Proof. by vm_compute. Qed.

Example upper_code_points :
  let up n := Py.code <$> list_ascii_of_string (Py.upper_char (ascii_of_nat n)) in
  let changed := filter (λ n, up n ≠ [n]) (seq 0 256) in
  changed = seq 97 26 ++ [223] ++ seq 224 23 ++ seq 248 7 ∧
  up 223 = [83; 83] ∧
  up <$> filter (λ n, n ≠ 223) changed = (λ n, [n - 32]) <$> filter (λ n, n ≠ 223) changed.
Proof. by vm_compute. Qed.

Example strip_examples :
  Py.strip (Sample.nbsp +:+ " Hi there" +:+ Py.nl +:+ Sample.nbsp) = "Hi there" ∧
  Py.strip (Sample.nbsp +:+ Py.nl) = "" ∧
  Py.upper (Py.strip (" web" +:+ Sample.nbsp)) = "WEB" ∧
  Py.lower "How Are YOU" = "how are you".
Proof. by vm_compute. Qed.

Lemma substring_length (s : string) : ∀ n m,
  String.length (String.substring n m s) = min m (String.length s - n).
Proof.
  induction s as [|c s IH]; intros n m.
  - destruct n, m; simpl; lia.
  - destruct n as [|n].
    + destruct m as [|m]; simpl; [lia|]. rewrite IH. lia.
    + simpl. rewrite IH. lia.
Qed.

(** [len(s[i:j]) = min(j - i, len(s) - i)] for [0 <= i <= j]. *)
Lemma slice_length (s : string) (i j : nat) :
  Py.len (Py.slice s i j) = min (j - i) (Py.len s - i).
Proof. apply substring_length. Qed.

Lemma ceil_div_step (a step : nat) : 0 < step → 0 < a →
  (a + (step - 1)) / step = S ((a - step + (step - 1)) / step).
Proof.
  intros Hs Ha. destruct (Nat.le_gt_cases step a) as [Hle|Hgt].
  - replace (a + (step - 1)) with ((a - step + (step - 1)) + 1 * step) by lia.
    rewrite Nat.div_add by lia. lia.
  - replace (a - step) with 0 by lia. simpl.
    rewrite (Nat.div_small (step - 1)) by lia.
    replace (a + (step - 1)) with ((a - 1) + 1 * step) by lia.
    rewrite Nat.div_add by lia. rewrite Nat.div_small by lia. lia.
Qed.

Lemma range_from_length (step : nat) : 0 < step → ∀ fuel i stop,
  stop - i ≤ fuel →
  length (Py.range_from fuel i stop step) = (stop - i + (step - 1)) / step.
Proof.
  intros Hstep. induction fuel as [|fuel IH]; intros i stop Hfuel; simpl.
  - replace (stop - i) with 0 by lia. simpl. symmetry. apply Nat.div_small. lia.
  - destruct (Nat.ltb_spec i stop) as [Hlt|Hge].
    + simpl. rewrite IH by lia.
      rewrite (ceil_div_step (stop - i)) by lia. f_equal. f_equal. lia.
    + replace (stop - i) with 0 by lia. simpl. symmetry. apply Nat.div_small. lia.
Qed.

Lemma range_from_lookup (step : nat) : 0 < step → ∀ fuel i stop k,
  stop - i ≤ fuel → k < (stop - i + (step - 1)) / step →
  Py.range_from fuel i stop step !! k = Some (i + k * step).
Proof.
  intros Hstep. induction fuel as [|fuel IH]; intros i stop k Hfuel Hk.
  - replace (stop - i) with 0 in Hk by lia. simpl in Hk.
    rewrite Nat.div_small in Hk by lia. lia.
  - simpl. destruct (Nat.ltb_spec i stop) as [Hlt|Hge].
    + destruct k as [|k]; simpl; [f_equal; lia|].
      rewrite (ceil_div_step (stop - i)) in Hk by lia.
      rewrite IH; [f_equal; lia | lia |].
      replace (stop - (i + step)) with (stop - i - step) by lia. lia.
    + replace (stop - i) with 0 in Hk by lia. simpl in Hk.
      rewrite Nat.div_small in Hk by lia. lia.
Qed.

(** One chunk per started stride of 800 characters. *)
Lemma chunk_text_length (text : string) :
  length (chunk_text text) = (Py.len text + 799) / 800.
Proof.
  unfold chunk_text, Py.range. rewrite length_fmap.
  rewrite range_from_length by lia. f_equal. lia.
Qed.

Lemma chunk_text_lookup (text : string) (k : nat) :
  k < (Py.len text + 799) / 800 →
  chunk_text text !! k = Some (Py.slice text (800 * k) (800 * k + 1000)).
Proof.
  intros Hk. unfold chunk_text, Py.range. rewrite list_lookup_fmap.
  rewrite range_from_lookup; [| lia | lia |].
  - simpl. do 2 f_equal; lia.
  - replace (Py.len text - 0 + (800 - 1)) with (Py.len text + 799) by lia. exact Hk.
Qed.

Lemma truthy_app (a b : string) : Py.truthy (a +:+ b) = Py.truthy a || Py.truthy b.
Proof. destruct a; [by destruct b|done]. Qed.

(** Joining with newlines keeps a non-empty part visible. *)
Lemma truthy_join_nl (docs : list string) :
  existsb Py.truthy docs = true → Py.truthy (Py.join Py.nl docs) = true.
Proof.
  unfold Py.join. induction docs as [|d [|d' docs] IH]; intros H.
  - done.
  - simpl in *. by rewrite orb_false_r in H.
  - change (String.concat Py.nl (d :: d' :: docs))
      with (d +:+ Py.nl +:+ String.concat Py.nl (d' :: docs)).
    rewrite !truthy_app. by rewrite orb_true_r.
Qed.

Lemma hit_nonempty (docs : list string) :
  existsb Py.truthy docs = true → (0 <? length docs) = true.
Proof. by destruct docs. Qed.

(** [str] separates distinct integers. *)
Lemma str_int_inj (a b : Z) : Py.str_int a = Py.str_int b → a = b.
Proof. unfold Py.str_int. apply (inj pretty). Qed.

(** ** The collection *)

Lemma zip3_length (docs ids : list string) (metas : list (gmap string string)) :
  length ids = length docs → length metas = length docs →
  length (Chroma.zip3 docs ids metas) = length docs.
Proof.
  revert ids metas. induction docs as [|d docs IH]; intros [|i ids] [|m metas]; simpl; try lia.
  intros. f_equal. apply IH; lia.
Qed.

Lemma zip3_lookup (docs ids : list string) (metas : list (gmap string string)) k d i m :
  docs !! k = Some d → ids !! k = Some i → metas !! k = Some m →
  Chroma.zip3 docs ids metas !! k = Some (Chroma.mkEntry i d m).
Proof.
  revert ids metas k.
  induction docs as [|d' docs IH]; intros [|i' ids] [|m' metas] [|k]; simpl; try done.
  - intros; by simplify_eq.
  - apply IH.
Qed.

Lemma delete_listed (ids : list string) (store : list Chroma.Entry) :
  Forall (λ e, Chroma.id e ∈ ids) store → Chroma.delete ids store = [].
Proof.
  unfold Chroma.delete. induction 1 as [|e store He _ IH]; [done|].
  rewrite filter_cons. by destruct (decide (Chroma.id e ∉ ids)).
Qed.

(** Deleting the ids [get()] lists empties the collection. *)
Lemma delete_all (store : list Chroma.Entry) :
  Chroma.delete (Chroma.get_ids store) store = [].
Proof.
  apply delete_listed, Forall_forall. intros e He.
  unfold Chroma.get_ids. by apply list_elem_of_fmap_2.
Qed.

(** A hit of a filtered query is stored and passes the filter. *)
Lemma nearest_scoped (dist : string → string → nat) (q : string) (n : nat)
    (k v : string) (store : list Chroma.Entry) (e : Chroma.Entry) :
  e ∈ Chroma.nearest dist q n k v store → e ∈ store ∧ Chroma.metadata e !! k = Some v.
Proof.
  unfold Chroma.nearest. intros Hin.
  apply elem_of_take in Hin as (i & Hin & _). apply list_elem_of_lookup_2 in Hin.
  rewrite merge_sort_Permutation in Hin.
  apply list_elem_of_filter in Hin as [Hm Hs]. done.
Qed.

(** ** What each engine function evaluates to *)

Section RunEquations.
Context (w : World) (s : State).

Lemma determine_intent_run (q : string) :
  determine_intent q w s =
    if bool_decide (Py.strip (Py.lower q) ∈ intent_greetings) then (Ok "CHAT", s, [])
    else
      let msgs := [mkMsg "user" (intent_prompt q)] in
      (match mistral w "mistral-small-latest" msgs 0%float with
       | Ok content =>
           let intent := Py.upper (Py.strip content) in
           Ok (if bool_decide (intent ∈ ["WEB"; "PDF"]) then intent else "CHAT")
       | Raise _ => Ok "CHAT"
       end, s, [CallLlm "mistral-small-latest" msgs 0%float]).
Proof.
  unfold determine_intent, complete_async. case_bool_decide; [done|].
  run_monad. by destruct (mistral w _ _ _).
Qed.

Lemma _search_pdf_sync_run (q uid : string) :
  _search_pdf_sync q uid w s =
    if collection_enabled w then
      let reply := fault_or w (OpQuery q)
                     (Chroma.query_documents (embed_distance w) q 5 "user_id" uid (index s)) in
      (Ok (match reply with
           | Ok (docs0 :: _) => if 0 <? length docs0 then Some (Py.join Py.nl docs0) else None
           | _ => None
           end), s, [CallIndexQuery q uid reply])
    else (Ok None, s, []).
Proof.
  unfold _search_pdf_sync, collection_query. run_monad.
  destruct (collection_enabled w); simpl; [|done].
  destruct (fault_or w _ _) as [[|docs0 ?]|]; simpl; try done.
Qed.

Lemma _search_web_sync_run (q : string) :
  _search_web_sync q w s =
    if tavily_enabled w then
      (Ok (match tavily_search w q with
           | Ok results => foldl (λ context r, context +:+ web_block r) "" results
           | Raise _ => ""
           end), s, [CallWebSearch q])
    else (Ok "", s, []).
Proof.
  unfold _search_web_sync, tavily_search_call. run_monad.
  destruct (tavily_enabled w); simpl; [|done].
  by destruct (tavily_search w q).
Qed.

Lemma complete_or_error_run (prompt : string) (history : list Msg)
    (query label : string) (temperature : float) :
  let msgs := completion_messages prompt history query in
  complete_or_error prompt history query label temperature w s =
    (match mistral w "mistral-large-latest" msgs temperature with
     | Ok text => Ok (text, label)
     | Raise e => Ok ("I encountered an error: " +:+ str_exn e, "Error")
     end, s, [CallLlm "mistral-large-latest" msgs temperature]).
Proof.
  unfold complete_or_error, complete_async. run_monad.
  by destruct (mistral w _ _ _).
Qed.

(** The classifier always answers, leaves the state alone and talks to the
    classification model only. *)
Lemma determine_intent_total (q : string) :
  ∃ intent t,
    determine_intent q w s = (Ok intent, s, t) ∧
    intent ∈ ["WEB"; "PDF"; "CHAT"] ∧
    Forall (λ c, ∃ msgs temp, c = CallLlm "mistral-small-latest" msgs temp) t ∧
    (Py.strip (Py.lower q) ∈ intent_greetings → intent = "CHAT" ∧ t = []).
Proof.
  rewrite determine_intent_run. case_bool_decide as Hgreet.
  { do 2 eexists. split; [done|]. rewrite !elem_of_cons. split; [auto|].
    split; [constructor|done]. }
  cbv zeta. destruct (mistral w _ _ _) as [content|e].
  - eexists _, _. split; [reflexivity|]. split.
    + case_bool_decide as Hin; [revert Hin|]; rewrite !elem_of_cons; tauto.
    + split; [|done]. repeat constructor. eauto.
  - eexists _, _. split; [reflexivity|]. rewrite !elem_of_cons. split; [auto|].
    split; [|done]. repeat constructor. eauto.
Qed.

End RunEquations.

(** The retrieval decisions: they always end in a context and a label,
    never call the completion service, do nothing for a greeting, and once
    the index answered with a non-empty text they keep it and skip the web. *)
Lemma resolve_context_run (w : World) (s : State) (q intent : string) (use_web : bool)
    (uid : Z) :
  ∃ ctx label t,
    resolve_context q intent use_web uid w s = (Ok (ctx, label), s, t) ∧
    Forall (λ c, is_llm_call c = false) t ∧
    (Py.strip (Py.lower q) ∈ agent_greetings →
       ctx = "" ∧ label = "General Knowledge" ∧ t = []) ∧
    (existsb is_index_hit t = true →
       Py.truthy ctx = true ∧ label = "Uploaded Document" ∧ existsb is_web_call t = false).
Proof.
  unfold resolve_context. run_monad.
  case_bool_decide as Hgreet.
  { do 3 eexists. split; [reflexivity|]. repeat split; done. }
  repeat (rewrite ?_search_pdf_sync_run, ?_search_web_sync_run in *;
          case_match; simplify_eq/=);
    (do 3 eexists; split; [reflexivity|]);
    (split; [by repeat constructor|]); (split; [done|]); simpl; intros Hhit; try done.
  all: rewrite ?orb_false_r in Hhit.
  all: try (by rewrite (hit_nonempty _ Hhit) in * ).
  all: try (by rewrite (truthy_join_nl _ Hhit) in * ).
Qed.

(** Every index query of the retrieval step is the caller's: same query
    text, [where] set to [str(user_id)]. *)
Lemma resolve_context_queries (w : World) (s : State) (q intent : string)
    (use_web : bool) (uid : Z) :
  Forall (λ c, is_index_call c = true →
               c = CallIndexQuery q (Py.str_int uid)
                     (fault_or w (OpQuery q)
                        (Chroma.query_documents (embed_distance w) q 5 "user_id"
                           (Py.str_int uid) (index s))))
         (trace (resolve_context q intent use_web uid w s)).
Proof.
  unfold resolve_context, trace. run_monad.
  case_bool_decide as Hgreet; [by constructor|].
  repeat (rewrite ?_search_pdf_sync_run, ?_search_web_sync_run in *;
          case_match; simplify_eq/=);
    repeat constructor; done.
Qed.

Lemma run_agent_run (w : World) (s : State) (query : string) (history : list Msg)
    (use_web : bool) (uid : Z) (si : option string) (temperature : float)
    (intent ctx label : string) (t1 t2 : list Call) :
  determine_intent query w s = (Ok intent, s, t1) →
  resolve_context query intent use_web uid w s = (Ok (ctx, label), s, t2) →
  let msgs := completion_messages
                (final_system_prompt (base_persona si) (today w) label ctx) history query in
  run_agent query history use_web uid si temperature w s =
    (match mistral w "mistral-large-latest" msgs temperature with
     | Ok text => Ok (text, label)
     | Raise e => Ok ("I encountered an error: " +:+ str_exn e, "Error")
     end, s, t1 ++ t2 ++ [CallLlm "mistral-large-latest" msgs temperature]).
Proof.
  intros Hi Hr. cbv zeta.
  unfold run_agent. run_monad. rewrite Hi, Hr. simpl.
  rewrite complete_or_error_run. by cbv zeta.
Qed.

Lemma run_agent_queries (w : World) (s : State) (query : string) (history : list Msg)
    (use_web : bool) (uid : Z) (si : option string) (temperature : float)
    (q user : string) (reply : result (list (list string))) :
  CallIndexQuery q user reply
    ∈ trace (run_agent query history use_web uid si temperature w s) →
  q = query ∧ user = Py.str_int uid ∧
  reply = fault_or w (OpQuery query)
            (Chroma.query_documents (embed_distance w) query 5 "user_id"
               (Py.str_int uid) (index s)).
Proof.
  destruct (determine_intent_total w s query) as (intent & t1 & Hi & _ & Hcls & _).
  destruct (resolve_context_run w s query intent use_web uid)
    as (ctx & label & t2 & Hr & _).
  rewrite (run_agent_run _ _ _ _ _ _ _ _ _ _ _ _ _ Hi Hr).
  pose proof (resolve_context_queries w s query intent use_web uid) as Hq.
  rewrite Hr in Hq. unfold trace in *. cbn [fst snd] in *.
  rewrite !elem_of_app, list_elem_of_singleton. intros [Hin|[Hin|Heq]].
  - rewrite Forall_forall in Hcls. destruct (Hcls _ Hin) as (? & ? & ?). discriminate.
  - rewrite Forall_forall in Hq. specialize (Hq _ Hin eq_refl). by simplify_eq.
  - discriminate.
Qed.

Lemma ingest_pdf_run (w : World) (s : State) (file_content : list byte)
    (filename : string) (user_id : Z) (pages : list string) :
  collection_enabled w = true →
  pdf_pages w file_content = Ok pages →
  chroma_fault w OpAdd = None →
  let text := extracted_text pages in
  let chunks := chunk_text text in
  ingest_pdf file_content filename user_id w s =
    if Py.truthy (Py.strip text) then
      (Ok (length chunks),
       mkState (Chroma.add chunks
                  ((λ k, uuid4 w (uuid_counter s + k)) <$> seq 0 (length chunks))
                  (replicate (length chunks) (chunk_metadata user_id filename)) (index s))
               (db s) (uuid_counter s + length chunks),
       [])
    else (Ok 0, s, []).
Proof.
  intros Hcol Hpdf Hadd text chunks. subst chunks.
  unfold ingest_pdf, parse_chunk_sync, read_pdf, collection_add, fresh_uuids, fault_or.
  run_monad. rewrite Hcol. simpl. rewrite Hpdf. fold text.
  destruct (Py.truthy (Py.strip text)); simpl; [|done].
  by rewrite Hadd.
Qed.

Lemma reset_memory_run (w : World) (s : State) :
  collection_enabled w = true →
  chroma_fault w OpGet = None →
  chroma_fault w OpDelete = None →
  reset_memory w s =
    match index s with
    | [] => (Ok false, s, [])
    | _ :: _ => (Ok true, mkState [] (db s) (uuid_counter s), [])
    end.
Proof.
  intros Hcol Hget Hdel.
  unfold reset_memory, clear_all_sync, collection_get_ids, collection_delete, fault_or.
  run_monad. rewrite Hcol. simpl. rewrite Hget. simpl.
  destruct (Chroma.get_ids (index s)) as [|i ids] eqn:Hids.
  - destruct (index s); [done|discriminate].
  - simpl. rewrite Hdel. simpl. rewrite <- Hids, delete_all.
    destruct (index s); [discriminate|done].
Qed.

(** The index reset never raises and never touches the relational tables. *)
Lemma reset_memory_total (w : World) (s : State) :
  ∃ b ix, reset_memory w s = (Ok b, mkState ix (db s) (uuid_counter s), []).
Proof.
  unfold reset_memory, clear_all_sync, collection_get_ids, collection_delete, fault_or.
  run_monad. destruct s as [ix d c]. simpl.
  repeat (case_match; simplify_eq/=); eauto.
Qed.


Lemma agent_greeting_is_intent_greeting (x : string) :
  x ∈ agent_greetings → x ∈ intent_greetings.
Proof. unfold agent_greetings, intent_greetings. rewrite !elem_of_cons. tauto. Qed.

Lemma classifier_calls_only (P : Call → bool) (t : list Call) :
  (∀ model msgs temp, P (CallLlm model msgs temp) = false) →
  Forall (λ c, ∃ msgs temp, c = CallLlm "mistral-small-latest" msgs temp) t →
  existsb P t = false.
Proof.
  intros HP. induction 1 as [|c t (msgs & temp & ->) _ IH]; [done|].
  simpl. by rewrite HP, IH.
Qed.

(** [run_agent] leaves the stores as they are. *)
Lemma run_agent_preserves_db : preserves_db run_agent.
Proof.
  intros q h use_web uid si t w s.
  destruct (determine_intent_total w s q) as (intent & t1 & Hi & _).
  destruct (resolve_context_run w s q intent use_web uid) as (ctx & label & t2 & Hr & _).
  by rewrite (run_agent_run _ _ _ _ _ _ _ _ _ _ _ _ _ Hi Hr).
Qed.

Lemma failing_agent_preserves_db : preserves_db Demo.failing_agent.
Proof. by intros q h use_web uid si t w s. Qed.

(** ** The relational tables *)

Lemma ensure_session_run (req : ChatRequest) (user : Orm.User) (w : World) (s : State) :
  let run := ensure_session req user w s in
  trace run = [] ∧
  match outcome run with
  | Ok _ =>
      is_Some (Orm.sessions (db (final run)) !! req_session_id req) ∧
      Orm.messages (db (final run)) = Orm.messages (db s)
  | Raise _ => final run = s
  end.
Proof.
  cbv zeta. unfold ensure_session, db_first_session, db_add_session, Orm.first_session.
  run_monad.
  destruct (Orm.sessions (db s) !! req_session_id req) as [row|] eqn:Hrow; simpl.
  - case_bool_decide; simpl; [by rewrite Hrow|]. by rewrite Hrow.
  - rewrite Hrow. simpl. by rewrite lookup_insert_eq.
Qed.

Lemma db_add_message_run (m : Orm.ChatMessage) (w : World) (s : State) :
  is_Some (Orm.sessions (db s) !! Orm.session_id m) →
  db_add_message m w s =
    (Ok tt,
     mkState (index s) (Orm.mkDb (Orm.sessions (db s)) (Orm.messages (db s) ++ [m]))
             (uuid_counter s),
     []).
Proof.
  intros Hsession. unfold db_add_message. run_monad.
  by rewrite bool_decide_true, andb_false_r.
Qed.

(** Whatever the backend and the outcome, [reset_db] deletes no message row. *)
Lemma reset_db_keeps_messages (u : Orm.User) (w : World) (s : State) :
  Orm.messages (db (final (reset_db u w s))) = Orm.messages (db s).
Proof.
  unfold reset_db, db_bulk_delete_sessions. run_monad.
  destruct (fk_enforced w && Orm.referenced (Orm.user_pk u) (db s)); simpl; [done|].
  match goal with |- context [reset_memory w ?s'] =>
    destruct (reset_memory_total w s') as (b & ix & ->) end.
  done.
Qed.

(** The sibling endpoint [delete_session] goes through the unit of work: the
    session is gone and so is every message that referenced it. *)
Lemma delete_session_cascades (sid : string) (u : Orm.User) (w : World) (s : State) :
  is_Some (Orm.first_session sid (Orm.user_pk u) (db s)) →
  let run := delete_session sid u w s in
  outcome run = Ok (mkStatusReply "success" "Chat deleted") ∧
  Orm.sessions (db (final run)) !! sid = None ∧
  Forall (λ m, Orm.session_id m ≠ sid) (Orm.messages (db (final run))).
Proof.
  intros [row Hrow] run. subst run.
  unfold delete_session, db_first_session, db_delete_session. run_monad.
  rewrite Hrow. simpl. split; [done|]. split.
  - apply lookup_delete_eq.
  - apply Forall_forall. intros m Hm. by apply list_elem_of_filter in Hm as [? _].
Qed.

(** * The claims *)

(** ** C1: chunk count of an ingested document *)

(** C1, amended.  With the index available, the PDF readable and the batch
    insert accepted, ingesting a document whose extracted text has [L]
    characters stores [ceil(L / 800)] chunks when the text is not blank and
    none when it is empty or all whitespace; chunk [k] is the slice
    [text[800k : 800k + 1000]], tagged with the uploader and the file name, and
    the returned count is the number of stored chunks. *)
Theorem ingest_pdf_chunks (w : World) (s : State) (file_content : list byte)
    (filename : string) (user_id : Z) (pages : list string) :
  collection_enabled w = true →
  pdf_pages w file_content = Ok pages →
  chroma_fault w OpAdd = None →
  let text := extracted_text pages in
  let run := ingest_pdf file_content filename user_id w s in
  let n := if Py.truthy (Py.strip text) then (Py.len text + 799) / 800 else 0 in
  outcome run = Ok n ∧
  ∃ added : list Chroma.Entry,
    index (final run) = index s ++ added ∧ length added = n ∧
    ∀ k, k < n → ∃ e, added !! k = Some e ∧
      Chroma.document e = Py.slice text (800 * k) (800 * k + 1000) ∧
      Chroma.metadata e !! "user_id" = Some (Py.str_int user_id) ∧
      Chroma.metadata e !! "filename" = Some filename.
Proof.
  intros Hcol Hpdf Hadd text run n. subst run n.
  rewrite (ingest_pdf_run w s file_content filename user_id pages Hcol Hpdf Hadd).
  fold text. destruct (Py.truthy (Py.strip text)) eqn:Hblank; unfold outcome, final.
  - cbn [fst snd index]. rewrite chunk_text_length. split; [done|].
    eexists. split; [unfold Chroma.add; reflexivity|].
    split.
    { rewrite zip3_length; rewrite ?length_fmap, ?length_seq, ?length_replicate;
        auto using chunk_text_length. }
    intros k Hk. eexists. split.
    { apply zip3_lookup.
      - by apply chunk_text_lookup.
      - rewrite list_lookup_fmap, lookup_seq_lt by done. done.
      - by apply lookup_replicate_2. }
    cbn [Chroma.document Chroma.metadata]. split; [done|]. unfold chunk_metadata. split.
    + by rewrite lookup_insert_eq.
    + rewrite lookup_insert_ne by done. by rewrite lookup_singleton_eq.
  - cbn [fst snd]. split; [done|]. exists []. rewrite app_nil_r.
    split; [done|]. split; [done|]. lia.
Qed.

(** The 2400-character scenario: three chunks, [0,1000), [800,1800), [1600,2400). *)
Lemma ingest_pdf_chunks_witness :
  let pages := [Demo.repeat_char 2399 "a"] in
  let w := Demo.make (Ok "CHAT") (Ok "Sure.") pages false in
  let text := extracted_text pages in
  let run := ingest_pdf [] "doc.pdf" Demo.alice w Demo.empty in
  (collection_enabled w = true ∧ pdf_pages w [] = Ok pages ∧ chroma_fault w OpAdd = None) ∧
  Py.len text = 2400 ∧
  outcome run = Ok 3 ∧
  Chroma.document <$> index (final run) =
    [Py.slice text 0 1000; Py.slice text 800 1800; Py.slice text 1600 2400].
Proof.
  intros pages w text run.
  split; [repeat split|]. split; [by vm_compute|].
  destruct (ingest_pdf_chunks w Demo.empty [] "doc.pdf" Demo.alice pages
              eq_refl eq_refl eq_refl) as [Hcount _].
  split; [exact Hcount|]. by vm_compute.
Defined.

(** C1 as stated fails: a 900-character text (one page of 899 characters and
    the newline appended to it) is stored as two chunks, text[0:1000] of 900
    characters and text[800:1800] of 100, where the stated formula gives one. *)
Lemma ingest_900_counterexample :
  let pages := [Demo.repeat_char 899 "a"] in
  let w := Demo.make (Ok "CHAT") (Ok "Sure.") pages false in
  let run := ingest_pdf [] "doc.pdf" Demo.alice w Demo.empty in
  Py.len (extracted_text pages) = 900 ∧
  spec_chunk_count 900 = 1 ∧
  outcome run = Ok 2 ∧
  Py.len <$> (Chroma.document <$> index (final run)) = [900; 100].
Proof. by vm_compute. Qed.

(** The stated formula and the code also part on 1601 characters (2 against 3)
    and on a non-empty all-whitespace text (1 against 0). *)
Example chunk_count_1601 :
  spec_chunk_count 1601 = 2 ∧ length (chunk_text (Demo.repeat_char 1601 "a")) = 3.
Proof. by vm_compute. Qed.

Example blank_text_is_not_indexed :
  let w := Demo.make (Ok "CHAT") (Ok "Sure.") [" "] false in
  Py.len (extracted_text [" "]) = 2 ∧
  outcome (ingest_pdf [] "blank.pdf" Demo.alice w Demo.empty) = Ok 0.
Proof. by vm_compute. Qed.

(** So does a page of no-break spaces, which [str.strip()] removes as well. *)
Example nbsp_text_is_not_indexed :
  let pages := [Sample.nbsp +:+ Sample.nbsp] in
  let w := Demo.make (Ok "CHAT") (Ok "Sure.") pages false in
  let run := ingest_pdf [] "blank.pdf" Demo.alice w Demo.empty in
  Py.len (extracted_text pages) = 3 ∧
  Py.truthy (Py.strip (extracted_text pages)) = false ∧
  outcome run = Ok 0 ∧ index (final run) = [].
Proof. by vm_compute. Qed.

(** ** C2: greetings skip retrieval *)

(** C2, amended.  For every query whose lowercased, trimmed text is one of
    "hi", "hello", "hey", the agent sends no request to the document index
    and none to the web search: its only request is the completion, whose
    prompt carries the label "General Knowledge", and that label is returned
    whenever the completion call succeeds (a failing completion returns the
    error text with the label "Error"). *)
Theorem greeting_skips_retrieval (w : World) (s : State) (query : string)
    (history : list Msg) (use_web : bool) (uid : Z) (si : option string)
    (temperature : float) :
  Py.strip (Py.lower query) ∈ agent_greetings →
  let msgs := completion_messages
                (final_system_prompt (base_persona si) (today w) "General Knowledge" "")
                history query in
  let run := run_agent query history use_web uid si temperature w s in
  trace run = [CallLlm "mistral-large-latest" msgs temperature] ∧
  existsb is_index_call (trace run) = false ∧
  existsb is_web_call (trace run) = false ∧
  outcome run = match mistral w "mistral-large-latest" msgs temperature with
                | Ok text => Ok (text, "General Knowledge")
                | Raise e => Ok ("I encountered an error: " +:+ str_exn e, "Error")
                end.
Proof.
  intros Hgreet msgs run. subst run msgs.
  destruct (determine_intent_total w s query) as (intent & t1 & Hi & _ & _ & Hshort).
  destruct (resolve_context_run w s query intent use_web uid)
    as (ctx & label & t2 & Hr & _ & Hskip & _).
  rewrite (run_agent_run _ _ _ _ _ _ _ _ _ _ _ _ _ Hi Hr).
  destruct (Hshort (agent_greeting_is_intent_greeting _ Hgreet)) as [_ ->].
  destruct (Hskip Hgreet) as (-> & -> & ->).
  done.
Qed.

Lemma greeting_skips_retrieval_witness :
  let query := " Hello " in
  let run := run_agent query [] true Demo.alice None 0.5%float Demo.chatty Demo.two_users in
  Py.strip (Py.lower query) ∈ agent_greetings ∧
  existsb is_index_call (trace run) = false ∧
  existsb is_web_call (trace run) = false ∧
  outcome run = Ok ("Sure.", "General Knowledge").
Proof.
  intros query run.
  assert (Hgreet : Py.strip (Py.lower query) ∈ agent_greetings)
    by (apply (bool_decide_unpack _); by vm_compute).
  split; [exact Hgreet|].
  destruct (greeting_skips_retrieval Demo.chatty Demo.two_users query [] true Demo.alice
              None 0.5%float Hgreet) as (_ & Hindex & Hweb & Hout).
  split; [exact Hindex|]. split; [exact Hweb|]. exact Hout.
Defined.

(** A greeting followed by a no-break space is a greeting: the index holds a
    chunk of the caller and is not asked. *)
Example greeting_with_nbsp :
  let query := "Hi" +:+ Sample.nbsp in
  let run := run_agent query [] true Demo.alice None 0.5%float Demo.chatty Demo.two_users in
  bool_decide (Py.strip (Py.lower query) ∈ agent_greetings) = true ∧
  length (trace run) = 1 ∧
  existsb is_index_call (trace run) = false ∧
  existsb is_web_call (trace run) = false ∧
  outcome run = Ok ("Sure.", "General Knowledge").
Proof. by vm_compute. Qed.

(** C2 as stated fails: "sup" is on the classifier's greeting list, yet the
    agent queries the document index for it and, the index holding a chunk of
    the caller, answers with the label "Uploaded Document". *)
Lemma greeting_sup_counterexample :
  let run := run_agent "sup" [] true Demo.alice None 0.5%float Demo.chatty Demo.two_users in
  bool_decide (Py.strip (Py.lower "sup") ∈ intent_greetings) = true ∧
  bool_decide (Py.strip (Py.lower "sup") ∈ agent_greetings) = false ∧
  existsb is_index_call (trace run) = true ∧
  outcome run = Ok ("Sure.", "Uploaded Document").
Proof. by vm_compute. Qed.

(** Also a greeting of the agent's own list is answered with the label
    "Error" when the completion call fails. *)
Example greeting_with_failing_completion :
  outcome (run_agent "hi" [] true Demo.alice None 0.5%float Demo.llm_down Demo.two_users)
    = Ok ("I encountered an error: timeout", "Error").
Proof. by vm_compute. Qed.

(** ** C3: memory reset and the message log *)

(** C3, evaluated where it fails.  Alice owns session "s1" holding one message
    and calls [reset_db].  On a backend that does not enforce foreign keys the
    call succeeds, her session row is deleted and the message stays behind; on
    an enforcing backend the bulk delete is rejected, the endpoint answers 500
    and nothing is deleted.  Either way the message survives the reset. *)
Theorem reset_db_orphans_messages :
  let before := Demo.chatted in
  let on_sqlite := reset_db Demo.alice_user Demo.sqlite before in
  let on_postgres := reset_db Demo.alice_user Demo.postgres before in
  Orm.first_session "s1" Demo.alice (db before) = Some (Orm.mkSession Demo.alice "hello...") ∧
  outcome on_sqlite = Ok (mkStatusReply "success" "History and PDF Memory cleared!") ∧
  Orm.sessions (db (final on_sqlite)) = ∅ ∧
  Orm.messages (db (final on_sqlite)) = [Orm.mkMessage "s1" "user" "hello"] ∧
  outcome on_postgres = Raise (HTTPException 500 "IntegrityError") ∧
  db (final on_postgres) = db before.
Proof. vm_compute. repeat split; reflexivity. Qed.

(** [delete_session] on the same data removes the message with the session. *)
Example delete_session_removes_messages :
  let run := delete_session "s1" Demo.alice_user Demo.sqlite Demo.chatted in
  outcome run = Ok (mkStatusReply "success" "Chat deleted") ∧
  db (final run) = Demo.no_db.
Proof. vm_compute. split; reflexivity. Qed.

(** ** C4: the reset empties the whole index *)

(** C4.  When the collection is available and its [get] and [delete] calls do
    not raise, the index is empty after [reset_memory], whoever owned the
    chunks: no query of any user finds a chunk.  The call answers [True]
    exactly when there was something to delete and leaves the relational
    tables alone. *)
Theorem reset_memory_clears_index (w : World) (s : State) :
  collection_enabled w = true →
  chroma_fault w OpGet = None →
  chroma_fault w OpDelete = None →
  let run := reset_memory w s in
  index (final run) = [] ∧
  (∀ (q user : string) (n : nat),
     Chroma.nearest (embed_distance w) q n "user_id" user (index (final run)) = []) ∧
  outcome run = Ok (bool_decide (index s ≠ [])) ∧
  db (final run) = db s.
Proof.
  intros Hcol Hget Hdel run. subst run.
  rewrite (reset_memory_run w s Hcol Hget Hdel).
  destruct (index s) as [|e store] eqn:Hix; unfold final, outcome; cbn [fst snd index db].
  - rewrite Hix. repeat split; try done. intros. by destruct n.
  - repeat split; try done. intros. by destruct n.
Qed.

Lemma reset_memory_clears_index_witness :
  let w := Demo.chatty in
  let run := reset_memory w Demo.two_users in
  (collection_enabled w = true ∧ chroma_fault w OpGet = None ∧ chroma_fault w OpDelete = None) ∧
  index Demo.two_users = [Demo.alice_chunk; Demo.bob_chunk] ∧
  index (final run) = [] ∧ outcome run = Ok true.
Proof.
  intros w run. split; [repeat split|]. split; [reflexivity|].
  destruct (reset_memory_clears_index w Demo.two_users eq_refl eq_refl eq_refl)
    as (Hindex & _ & Hout & _).
  split; [exact Hindex|exact Hout].
Defined.

(** ** C5: an index hit excludes the web search *)

(** C5.  If, while the agent processes a query, the document-index search
    answers with at least one non-empty document text, then no web search is
    requested for that query and the resolved source label is
    "Uploaded Document": the retrieval step ends with a non-empty context and
    that label, the completion prompt carries both, and the label is returned
    with the completion text. *)
Theorem index_hit_excludes_web (w : World) (s : State) (query : string)
    (history : list Msg) (use_web : bool) (uid : Z) (si : option string)
    (temperature : float) :
  let run := run_agent query history use_web uid si temperature w s in
  existsb is_index_hit (trace run) = true →
  existsb is_web_call (trace run) = false ∧
  ∃ intent ctx,
    Py.truthy ctx = true ∧
    outcome (resolve_context query intent use_web uid w s) = Ok (ctx, "Uploaded Document") ∧
    let msgs := completion_messages
                  (final_system_prompt (base_persona si) (today w) "Uploaded Document" ctx)
                  history query in
    CallLlm "mistral-large-latest" msgs temperature ∈ trace run ∧
    outcome run = match mistral w "mistral-large-latest" msgs temperature with
                  | Ok text => Ok (text, "Uploaded Document")
                  | Raise e => Ok ("I encountered an error: " +:+ str_exn e, "Error")
                  end.
Proof.
  intros run. subst run.
  destruct (determine_intent_total w s query) as (intent & t1 & Hi & _ & Hcls & _).
  destruct (resolve_context_run w s query intent use_web uid)
    as (ctx & label & t2 & Hr & _ & _ & Hhit).
  rewrite (run_agent_run _ _ _ _ _ _ _ _ _ _ _ _ _ Hi Hr).
  unfold trace, outcome. cbn [fst snd].
  rewrite !existsb_app, (classifier_calls_only is_index_hit t1 ltac:(done) Hcls),
    (classifier_calls_only is_web_call t1 ltac:(done) Hcls).
  cbn [existsb is_index_hit is_web_call]. rewrite !orb_false_r, !orb_false_l.
  intros Hh. destruct (Hhit Hh) as (Hctx & -> & Hweb).
  split; [done|]. exists intent, ctx. split; [done|]. rewrite Hr. split; [done|].
  split; [|done]. rewrite !elem_of_app, list_elem_of_singleton. auto.
Qed.

Lemma index_hit_excludes_web_witness :
  let run := run_agent "When does the contract end?" [] true Demo.alice None 0.5%float
                       Demo.pdf_minded Demo.two_users in
  existsb is_index_hit (trace run) = true ∧
  existsb is_web_call (trace run) = false ∧
  outcome run = Ok ("Sure.", "Uploaded Document").
Proof.
  intros run.
  assert (Hhit : existsb is_index_hit (trace run) = true) by (by vm_compute).
  split; [exact Hhit|].
  destruct (index_hit_excludes_web Demo.pdf_minded Demo.two_users
              "When does the contract end?" [] true Demo.alice None 0.5%float Hhit)
    as (Hweb & _).
  split; [exact Hweb|]. by vm_compute.
Defined.

(** ** C6: one user's chunks are invisible to another's queries *)

(** C6.  A document-index search on behalf of user [A] answers nothing or the
    joined texts of its hits; every hit is a stored chunk whose metadata
    [user_id] is [str(A)], so a chunk tagged with another user [B], and in
    particular one ingested by [B], is never among them.  Every index query
    the agent issues for [A] is such a search. *)
Theorem search_scoped_to_user (w : World) (s : State) (query : string) (A : Z) :
  let hits := Chroma.nearest (embed_distance w) query 5 "user_id" (Py.str_int A) (index s) in
  let run := _search_pdf_sync query (Py.str_int A) w s in
  (outcome run = Ok None ∨
   outcome run = Ok (Some (Py.join Py.nl (Chroma.document <$> hits)))) ∧
  Forall (λ e, e ∈ index s ∧ Chroma.metadata e !! "user_id" = Some (Py.str_int A)) hits ∧
  (∀ (B : Z) (e : Chroma.Entry),
     B ≠ A → Chroma.metadata e !! "user_id" = Some (Py.str_int B) → e ∉ hits) ∧
  (∀ (B : Z) (filename : string) (e : Chroma.Entry),
     B ≠ A → Chroma.metadata e = chunk_metadata B filename → e ∉ hits) ∧
  (∀ history use_web si temperature q user reply,
     CallIndexQuery q user reply
       ∈ trace (run_agent query history use_web A si temperature w s) →
     q = query ∧ user = Py.str_int A ∧
     (reply = Ok [Chroma.document <$> hits] ∨ ∃ e, reply = Raise e)).
Proof.
  intros hits run. subst run.
  assert (Hscoped : ∀ e, e ∈ hits →
            e ∈ index s ∧ Chroma.metadata e !! "user_id" = Some (Py.str_int A))
    by (intros e; apply nearest_scoped).
  assert (Hother : ∀ (B : Z) (e : Chroma.Entry),
            B ≠ A → Chroma.metadata e !! "user_id" = Some (Py.str_int B) → e ∉ hits).
  { intros B e Hne HB Hin. destruct (Hscoped e Hin) as [_ HA].
    rewrite HB in HA. injection HA as HA. by apply str_int_inj in HA. }
  split; [|split; [by apply Forall_forall|split; [done|split]]].
  - rewrite _search_pdf_sync_run. unfold outcome, fault_or, Chroma.query_documents.
    destruct (collection_enabled w); [|by left].
    destruct (chroma_fault w (OpQuery query)); cbn [fst snd]; [by left|].
    fold hits. destruct (0 <? length (Chroma.document <$> hits)); [by right|by left].
  - intros B filename e Hne Hmeta. apply (Hother B e Hne). rewrite Hmeta.
    unfold chunk_metadata. by rewrite lookup_insert_eq.
  - intros history use_web si temperature q user reply Hin.
    apply run_agent_queries in Hin as (-> & -> & ->). split; [done|]. split; [done|].
    unfold fault_or, Chroma.query_documents. fold hits.
    destruct (chroma_fault w (OpQuery query)); eauto.
Qed.

(** Alice's search over a store holding a chunk of hers and one of Bob's. *)
Example alice_does_not_see_bob :
  outcome (_search_pdf_sync "salary" (Py.str_int Demo.alice) Demo.chatty Demo.two_users)
    = Ok (Some "The contract ends in May.") ∧
  outcome (_search_pdf_sync "salary" (Py.str_int Demo.bob) Demo.chatty Demo.two_users)
    = Ok (Some "Salary table.").
Proof. by vm_compute. Qed.

(** ** C7: the intent classifier fails open *)

(** C7.  For every query the classifier returns one of "WEB", "PDF", "CHAT"
    and never raises: a greeting is answered "CHAT" without a request; else
    the trimmed, upper-cased answer of the model is returned when it is "WEB"
    or "PDF", any other answer gives "CHAT", and so does any exception of the
    request. *)
Theorem determine_intent_fails_open (w : World) (s : State) (q : string) :
  let run := determine_intent q w s in
  let request := [mkMsg "user" (intent_prompt q)] in
  (outcome run = Ok "WEB" ∨ outcome run = Ok "PDF" ∨ outcome run = Ok "CHAT") ∧
  final run = s ∧
  (Py.strip (Py.lower q) ∈ intent_greetings → outcome run = Ok "CHAT" ∧ trace run = []) ∧
  (Py.strip (Py.lower q) ∉ intent_greetings →
     (∀ e, mistral w "mistral-small-latest" request 0%float = Raise e →
           outcome run = Ok "CHAT") ∧
     (∀ content, mistral w "mistral-small-latest" request 0%float = Ok content →
        let answer := Py.upper (Py.strip content) in
        (answer ∈ ["WEB"; "PDF"] → outcome run = Ok answer) ∧
        (answer ∉ ["WEB"; "PDF"] → outcome run = Ok "CHAT"))).
Proof.
  intros run request. subst run request. rewrite determine_intent_run.
  case_bool_decide as Hgreet; cbv zeta; unfold outcome, final, trace; cbn [fst snd].
  { repeat split; auto. done. }
  split.
  { destruct (mistral w _ _ _); [|auto]. case_bool_decide as Hin; [|auto].
    revert Hin. rewrite !elem_of_cons, elem_of_nil. intros [->|[->|[]]]; auto. }
  split; [done|]. split; [done|]. intros _. split.
  - by intros e ->.
  - intros content ->. split; intros Hin; by case_bool_decide.
Qed.

(** Whitespace around the query and around the answer is [str.strip()]'s:
    an answer "web" followed by a no-break space is WEB, and a greeting
    followed by one is answered CHAT without a request. *)
Example classifier_strips_nbsp :
  let answers_web := Demo.make (Ok ("web" +:+ Sample.nbsp)) (Ok "Sure.") [] false in
  let greeting := determine_intent ("hi" +:+ Sample.nbsp) Sample.web_minded Demo.empty in
  outcome (determine_intent "What is new?" answers_web Demo.empty) = Ok "WEB" ∧
  outcome greeting = Ok "CHAT" ∧ trace greeting = [].
Proof. by vm_compute. Qed.

Example classifier_examples :
  outcome (determine_intent "How Are You" Demo.llm_down Demo.empty) = Ok "CHAT" ∧
  outcome (determine_intent "What is in my file?" Demo.pdf_minded Demo.empty) = Ok "PDF" ∧
  outcome (determine_intent "What is in my file?" Demo.llm_down Demo.empty) = Ok "CHAT" ∧
  outcome (determine_intent "What is in my file?"
             (Demo.make (Ok "I think PDF") (Ok "Sure.") [] false) Demo.empty) = Ok "CHAT".
Proof. by vm_compute. Qed.

(** ** C8: a failing completion is reported, not raised *)

(** C8.  If the completion request the agent sends raises [e], the agent
    returns the text "I encountered an error: " followed by [str(e)], paired
    with the label "Error". *)
Theorem completion_error_is_reported (w : World) (s : State) (query : string)
    (history : list Msg) (use_web : bool) (uid : Z) (si : option string)
    (temperature : float) (msgs : list Msg) (e : exn) :
  let run := run_agent query history use_web uid si temperature w s in
  CallLlm "mistral-large-latest" msgs temperature ∈ trace run →
  mistral w "mistral-large-latest" msgs temperature = Raise e →
  outcome run = Ok ("I encountered an error: " +:+ str_exn e, "Error").
Proof.
  intros run. subst run.
  destruct (determine_intent_total w s query) as (intent & t1 & Hi & _ & Hcls & _).
  destruct (resolve_context_run w s query intent use_web uid)
    as (ctx & label & t2 & Hr & Hnollm & _).
  rewrite (run_agent_run _ _ _ _ _ _ _ _ _ _ _ _ _ Hi Hr).
  unfold trace, outcome. cbn [fst snd].
  rewrite !elem_of_app, list_elem_of_singleton. intros [Hin|[Hin|Heq]] Hraise.
  - rewrite Forall_forall in Hcls. destruct (Hcls _ Hin) as (? & ? & ?). discriminate.
  - rewrite Forall_forall in Hnollm. by specialize (Hnollm _ Hin).
  - injection Heq as <-. by rewrite Hraise.
Qed.

Lemma completion_error_is_reported_witness :
  let w := Demo.llm_down in
  let query := "What is new?" in
  let msgs := completion_messages
                (final_system_prompt (base_persona None) (today w) "General Knowledge" "")
                [] query in
  let run := run_agent query [] true Demo.alice None 0.5%float w Demo.empty in
  trace run !! 2 = Some (CallLlm "mistral-large-latest" msgs 0.5%float) ∧
  mistral w "mistral-large-latest" msgs 0.5%float = Raise (Exception "timeout") ∧
  outcome run = Ok ("I encountered an error: timeout", "Error").
Proof.
  intros w query msgs run.
  assert (Hcall : trace run !! 2 = Some (CallLlm "mistral-large-latest" msgs 0.5%float))
    by (by vm_compute).
  split; [exact Hcall|]. split; [reflexivity|].
  exact (completion_error_is_reported w Demo.empty query [] true Demo.alice None 0.5%float
           msgs (Exception "timeout") (list_elem_of_lookup_2 _ _ _ Hcall) eq_refl).
Defined.

(** ** C9: the persona of the completion request *)

(** Line 151 on its own: the supplied string when it is longer than five
    characters, the default otherwise. *)
Lemma base_persona_threshold (s : string) :
  (base_persona (Some s) = s ↔ 5 < Py.len s) ∧
  (Py.len s ≤ 5 → base_persona (Some s) = default_persona) ∧
  base_persona None = default_persona.
Proof.
  unfold base_persona. split; [|split; [|done]].
  - destruct (Nat.ltb_spec 5 (Py.len s)) as [Hlt|Hle].
    + destruct s as [|c s]; [simpl in Hlt; lia|]. change (Py.truthy (String c s)) with true.
      simpl. tauto.
    + rewrite andb_false_r. split; [|lia]. intros <-. vm_compute in Hle. lia.
  - intros Hle. destruct (Nat.ltb_spec 5 (Py.len s)); [lia|]. by rewrite andb_false_r.
Qed.

(** The messages of the completion request: the system prompt, the history
    as it was passed, the query. *)
Lemma completion_messages_eq (prompt : string) (history : list Msg) (query : string) :
  completion_messages prompt history query =
    mkMsg "system" prompt :: history ++ [mkMsg "user" query].
Proof.
  unfold completion_messages. simpl. do 2 f_equal.
  induction history as [|[r c] history IH]; [done|]. rewrite fmap_cons. simpl. by f_equal.
Qed.

(** The system prompt opens with a line break, four spaces and the persona;
    what follows the persona line does not depend on the persona. *)
Lemma final_system_prompt_persona_line (date label ctx : string) :
  ∃ rest, ∀ persona,
    final_system_prompt persona date label ctx =
      Py.nl +:+ "    " +:+ persona +:+ Py.nl +:+ rest.
Proof. eexists. intros persona. unfold final_system_prompt, Py.join. reflexivity. Qed.

(** C9.  Whatever the query, the history and the retrieval outcome, the agent
    sends one completion request, after its other requests, and returns what
    that request is answered.  The system message of the request opens with a
    line break, four spaces and the base persona on a line of its own; the
    rest of that message, the requests sent before it and the source label do
    not depend on the persona the caller supplied.  The base persona is the
    supplied string, verbatim, if and only if it is longer than five
    characters; a supplied string of at most five characters and a missing
    one are ignored, and the line carries the default persona. *)
Theorem run_agent_persona (w : World) (s : State) (query : string) (history : list Msg)
    (use_web : bool) (uid : Z) (temperature : float) :
  ∃ (before : list Call) (rest label : string),
    Forall (λ c, ∀ msgs t, c ≠ CallLlm "mistral-large-latest" msgs t) before ∧
    ∀ system_instruction : option string, ∃ persona : string,
      let request := mkMsg "system" (Py.nl +:+ "    " +:+ persona +:+ Py.nl +:+ rest)
                       :: history ++ [mkMsg "user" query] in
      let run := run_agent query history use_web uid system_instruction temperature w s in
      trace run = before ++ [CallLlm "mistral-large-latest" request temperature] ∧
      outcome run = match mistral w "mistral-large-latest" request temperature with
                    | Ok text => Ok (text, label)
                    | Raise e => Ok ("I encountered an error: " +:+ str_exn e, "Error")
                    end ∧
      (∀ p, system_instruction = Some p → (persona = p ↔ 5 < Py.len p)) ∧
      (∀ p, system_instruction = Some p → Py.len p ≤ 5 → persona = default_persona) ∧
      (system_instruction = None → persona = default_persona).
Proof.
  destruct (determine_intent_total w s query) as (intent & t1 & Hi & _ & Hcls & _).
  destruct (resolve_context_run w s query intent use_web uid)
    as (ctx & label & t2 & Hr & Hnollm & _).
  destruct (final_system_prompt_persona_line (today w) label ctx) as [rest Hrest].
  exists (t1 ++ t2), rest, label. split.
  { apply Forall_app. split.
    - eapply Forall_impl; [exact Hcls|]. intros c (m & t & ->) msgs t'. discriminate.
    - eapply Forall_impl; [exact Hnollm|]. intros c Hc msgs t' ->. discriminate. }
  intros si. exists (base_persona si). cbv zeta.
  rewrite (run_agent_run _ _ _ _ _ _ _ _ _ _ _ _ _ Hi Hr).
  rewrite completion_messages_eq, Hrest. unfold trace, outcome. cbn [fst snd].
  split; [by rewrite app_assoc|]. split; [done|].
  split; [|split].
  - intros p ->. apply base_persona_threshold.
  - intros p ->. apply base_persona_threshold.
  - intros ->. apply (base_persona_threshold "").
Qed.

(** The persona line of the completion request for a persona of twelve
    characters, for one of five and for none. *)
Example persona_in_the_request :
  let run p := run_agent "What is new?" [] false Demo.alice p 0.5%float
                 Demo.chatty Demo.empty in
  let opening n p := match last (trace (run p)) with
                     | Some (CallLlm "mistral-large-latest" (m :: _) _) =>
                         (msg_role m, Py.slice (msg_content m) 0 n)
                     | _ => ("", "")
                     end in
  opening 18 (Some "Be a pirate.") = ("system", Py.nl +:+ "    Be a pirate." +:+ Py.nl) ∧
  opening 47 (Some "Bard.") =
    ("system", Py.nl +:+ "    You are Avii Pro, a helpful AI assistant." +:+ Py.nl) ∧
  opening 47 None =
    ("system", Py.nl +:+ "    You are Avii Pro, a helpful AI assistant." +:+ Py.nl).
Proof. by vm_compute. Qed.

Example persona_examples :
  base_persona (Some "Pirate") = "Pirate" ∧
  base_persona (Some "Bard.") = default_persona ∧
  base_persona (Some "") = default_persona.
Proof. by vm_compute. Qed.

(** ** C10: a chat request logs the query and the answer *)

(** C10.  Whatever engine entry point the endpoint awaits, as long as it does
    not write to the relational tables: a chat request that is answered
    appends exactly two rows to the message table, both under the request's
    session id, first role "user" with the submitted query, then role "model"
    with the returned response text.  The response is what the engine
    returned; when the engine call raises [e] the response, and so the model
    row, is the "trouble thinking" text ending in [str(e)], and the source is
    "Error". *)
Theorem chat_appends_two_messages (agent : Agent) (w : World) (s : State)
    (req : ChatRequest) (user : Orm.User) (reply : ChatResponse) :
  preserves_db agent →
  let run := chat_endpoint_with agent req user w s in
  outcome run = Ok reply →
  let sid := req_session_id req in
  let user_msg := Orm.mkMessage sid "user" (req_query req) in
  Orm.messages (db (final run)) =
    Orm.messages (db s) ++ [user_msg; Orm.mkMessage sid "model" (response reply)] ∧
  resp_session_id reply = sid ∧
  ∃ s1, Orm.messages (db s1) = Orm.messages (db s) ++ [user_msg] ∧
    match outcome (agent (req_query req) (history_fmt req) (req_use_web req)
                         (Orm.user_pk user) (req_system_instruction req)
                         (req_temperature req) w s1) with
    | Ok (text, label) => response reply = text ∧ source reply = label
    | Raise e =>
        response reply = "I'm having trouble thinking right now. Error: " +:+ str_exn e ∧
        source reply = "Error"
    end.
Proof.
  intros Hagent run. cbv zeta.
  pose proof (ensure_session_run req user w s) as Hens. cbv zeta in Hens.
  assert (Hrun : run = chat_endpoint_with agent req user w s) by done.
  clearbody run. unfold chat_endpoint_with in Hrun.
  unfold mbind at 1 in Hrun. unfold M_bind in Hrun.
  destruct (ensure_session req user w s) as [[[[]|e0] s0] t0];
    unfold outcome, final, trace in Hens; cbn [fst snd] in Hens;
    [|subst run; intros ?; discriminate].
  destruct Hens as (-> & Hsess & Hmsgs).
  unfold mbind at 1 in Hrun. unfold M_bind in Hrun.
  rewrite db_add_message_run in Hrun by done.
  set (s1 := mkState _ _ _) in Hrun.
  unfold mbind at 1 in Hrun. unfold M_bind, try_except in Hrun.
  pose proof (Hagent (req_query req) (history_fmt req) (req_use_web req)
                (Orm.user_pk user) (req_system_instruction req) (req_temperature req)
                w s1) as Hdb.
  assert (Hs1 : Orm.messages (db s1) =
                Orm.messages (db s) ++
                [Orm.mkMessage (req_session_id req) "user" (req_query req)])
    by (subst s1; cbn [db Orm.messages]; by rewrite Hmsgs).
  assert (Hsess1 : is_Some (Orm.sessions (db s1) !! req_session_id req)) by done.
  clearbody s1.
  destruct (agent _ _ _ _ _ _ w s1) as [[[[text label]|e] s2] t2] eqn:Hagent_run;
    unfold final in Hdb; cbn [fst snd] in Hdb;
    unfold mret, M_ret in Hrun; cbn beta iota zeta in Hrun;
    unfold mbind at 1 in Hrun; unfold M_bind in Hrun;
    rewrite db_add_message_run in Hrun by (rewrite Hdb; done);
    cbn beta iota zeta in Hrun; subst run;
    unfold outcome, final; cbn [fst snd db Orm.messages];
    intros [= <-]; cbn [response source resp_session_id];
    rewrite Hdb, Hs1, <- app_assoc;
    (split; [done|]); (split; [done|]);
    exists s1; (split; [done|]); by rewrite Hagent_run.
Qed.

Lemma chat_appends_two_messages_witness :
  let run := chat_endpoint_with Demo.failing_agent Demo.hello_request Demo.alice_user
                                Demo.postgres Demo.chatted in
  let text := "I'm having trouble thinking right now. Error: boom" in
  let reply := mkChatResponse text "Error" "s2" in
  preserves_db Demo.failing_agent ∧
  outcome run = Ok reply ∧
  Orm.messages (db (final run)) =
    [Orm.mkMessage "s1" "user" "hello";
     Orm.mkMessage "s2" "user" "What is new?";
     Orm.mkMessage "s2" "model" text].
Proof.
  intros run text reply.
  assert (Hok : outcome run = Ok reply) by (by vm_compute).
  split; [exact failing_agent_preserves_db|]. split; [exact Hok|].
  destruct (chat_appends_two_messages Demo.failing_agent Demo.postgres Demo.chatted
              Demo.hello_request Demo.alice_user reply failing_agent_preserves_db Hok)
    as (Hlog & _).
  exact Hlog.
Defined.

(** The endpoint as deployed, against a completion service that is down: the
    engine reports the failure itself and the two rows are logged. *)
Example chat_endpoint_llm_down :
  let run := chat_endpoint Demo.hello_request Demo.alice_user Demo.llm_down Demo.chatted in
  outcome run = Ok (mkChatResponse "I encountered an error: timeout" "Error" "s2") ∧
  Orm.messages (db (final run)) =
    [Orm.mkMessage "s1" "user" "hello";
     Orm.mkMessage "s2" "user" "What is new?";
     Orm.mkMessage "s2" "model" "I encountered an error: timeout"].
Proof. by vm_compute. Qed.

(** * Further properties of the code *)

(** ** Chunks of a text *)

Lemma substring_zero_length (s : string) (n : nat) : String.substring n 0 s = "".
Proof. revert n. induction s as [|c s IH]; intros [|n]; simpl; auto. Qed.

Lemma substring_substring (s : string) : ∀ i c a b,
  String.substring a b (String.substring i c s) = String.substring (i + a) (min b (c - a)) s.
Proof.
  induction s as [|ch s IH]; intros i c a b.
  - destruct i, c, a, b; reflexivity.
  - destruct i as [|i].
    + destruct c as [|c].
      * simpl String.substring at 2. rewrite Nat.min_0_r.
        rewrite substring_zero_length. destruct a, b; reflexivity.
      * simpl String.substring at 2. destruct a as [|a].
        -- destruct b as [|b]; [reflexivity|]. simpl. f_equal.
           rewrite (IH 0 c 0 b). simpl. f_equal. lia.
        -- simpl. rewrite (IH 0 c a b). reflexivity.
    + simpl. apply IH.
Qed.

Lemma substring_app (s : string) : ∀ i a b,
  String.substring i a s +:+ String.substring (i + a) b s = String.substring i (a + b) s.
Proof.
  induction s as [|ch s IH]; intros i a b.
  - destruct i, a, b; reflexivity.
  - destruct i as [|i].
    + destruct a as [|a]; [reflexivity|].
      change (String ch (String.substring 0 a s +:+ String.substring (0 + a) b s)
              = String ch (String.substring 0 (a + b) s)).
      f_equal. apply (IH 0 a b).
    + simpl. apply IH.
Qed.

Lemma substring_clip (s : string) : ∀ i m,
  String.length s - i ≤ m → String.substring i m s = String.substring i (String.length s - i) s.
Proof.
  induction s as [|ch s IH]; intros i m Hm.
  - destruct i, m; reflexivity.
  - destruct i as [|i].
    + destruct m as [|m]; [simpl in Hm; lia|]. simpl. f_equal. rewrite (IH 0 m) by (simpl in *; lia).
      f_equal. lia.
    + simpl. apply IH. simpl in Hm. lia.
Qed.

Lemma substring_all (s : string) : String.substring 0 (String.length s) s = s.
Proof. induction s as [|ch s IH]; simpl; [done|]. by rewrite IH. Qed.

Lemma concat_empty_cons (x : string) (l : list string) :
  String.concat "" (x :: l) = x +:+ String.concat "" l.
Proof.
  destruct l as [|y l]; [|done].
  change (x = x +:+ ""). induction x as [|c x IH]; [done|].
  change (String c x = String c (x +:+ "")). by rewrite <- IH.
Qed.

Lemma chunk_index_in_text (L k : nat) : k < (L + 799) / 800 → 800 * k < L.
Proof.
  intros Hk. pose proof (Nat.Div0.mul_div_le (L + 799) 800). lia.
Qed.

(** X1.  Every chunk [ingest_pdf] cuts from a text is non-empty and at most
    1000 characters long. *)
Theorem chunk_sizes (text : string) :
  Forall (λ c, 1 ≤ Py.len c ≤ 1000) (chunk_text text).
Proof.
  apply Forall_lookup. intros k c Hc.
  assert (Hk : k < (Py.len text + 799) / 800).
  { rewrite <- chunk_text_length. by eapply lookup_lt_Some. }
  rewrite (chunk_text_lookup text k Hk) in Hc. injection Hc as <-.
  rewrite slice_length. apply chunk_index_in_text in Hk. lia.
Qed.

Lemma stride_prefix (text : string) (i : nat) :
  Py.slice (Py.slice text i (i + 1000)) 0 800 = String.substring i 800 text.
Proof.
  unfold Py.slice. rewrite substring_substring. f_equal; lia.
Qed.

Lemma strides_rebuild (text : string) : ∀ fuel i,
  Py.len text - i ≤ fuel →
  String.concat "" ((λ j, String.substring j 800 text)
                      <$> Py.range_from fuel i (Py.len text) 800)
  = String.substring i (Py.len text - i) text.
Proof.
  induction fuel as [|fuel IH]; intros i Hfuel.
  - replace (Py.len text - i) with 0 by lia. by rewrite substring_zero_length.
  - simpl Py.range_from. destruct (Nat.ltb_spec i (Py.len text)) as [Hlt|Hge].
    + rewrite fmap_cons, concat_empty_cons, IH by lia.
      destruct (Nat.le_gt_cases 800 (Py.len text - i)) as [Hfull|Hshort].
      * rewrite substring_app. f_equal. lia.
      * replace (Py.len text - (i + 800)) with 0 by lia.
        rewrite substring_zero_length.
        rewrite (substring_clip text i 800) by (unfold Py.len in *; lia).
        change (String.length text) with (Py.len text).
        generalize (String.substring i (Py.len text - i) text). intros x.
        induction x as [|c x IHx]; [done|].
        change (String c (x +:+ "") = String c x). by rewrite IHx.
    + replace (Py.len text - i) with 0 by lia. by rewrite substring_zero_length.
Qed.

(** X2.  Chunking loses nothing: the first 800 characters of each chunk,
    concatenated in order, are the text again. *)
Theorem chunks_rebuild_text (text : string) :
  String.concat "" ((λ c, Py.slice c 0 800) <$> chunk_text text) = text.
Proof.
  unfold chunk_text, Py.range. rewrite <- list_fmap_compose.
  rewrite (list_fmap_ext _ (λ j, String.substring j 800 text))
    by (intros; apply stride_prefix).
  rewrite strides_rebuild by lia.
  rewrite Nat.sub_0_r. apply substring_all.
Qed.

Lemma slice_short (s : string) (n : nat) : Py.len s ≤ n → Py.slice s 0 n = s.
Proof.
  intros Hn. unfold Py.slice. rewrite substring_clip by (unfold Py.len in Hn; lia).
  rewrite !Nat.sub_0_r. apply substring_all.
Qed.

(** X3.  Consecutive chunks overlap: a chunk that has a successor consists of
    800 characters followed by the overlap, and the overlap is the beginning
    of the following chunk, namely its first 200 characters, or all of it when
    it has no more than 200.  The overlap is the slice of the text that starts
    at the next multiple of 800; it is never empty and has
    [min(200, len(next))] characters: 200 unless the text ends earlier (a
    900-character text is cut into chunks of 900 and 100 characters that
    overlap by 100). *)
Theorem consecutive_chunks_overlap (text : string) (k : nat) (c c' : string) :
  chunk_text text !! k = Some c →
  chunk_text text !! S k = Some c' →
  let overlap := Py.slice c 800 1000 in
  overlap = Py.slice c' 0 200 ∧
  overlap = Py.slice text (800 * S k) (800 * S k + 200) ∧
  c = Py.slice c 0 800 +:+ overlap ∧
  Py.len (Py.slice c 0 800) = 800 ∧
  Py.len c' = 1000 `min` (Py.len text - 800 * S k) ∧
  Py.len overlap = 200 `min` Py.len c' ∧
  1 ≤ Py.len overlap ∧
  (Py.len c' ≤ 200 → overlap = c').
Proof.
  intros Hc Hc' overlap. subst overlap.
  assert (Hk' : S k < (Py.len text + 799) / 800).
  { rewrite <- chunk_text_length. by eapply lookup_lt_Some. }
  pose proof (chunk_index_in_text _ _ Hk') as Hin.
  rewrite (chunk_text_lookup text k) in Hc by lia.
  rewrite (chunk_text_lookup text (S k) Hk') in Hc'.
  assert (Ec : c = Py.slice text (800 * k) (800 * k + 1000)) by congruence.
  assert (Ec' : c' = Py.slice text (800 * S k) (800 * S k + 1000)) by congruence.
  clear Hc Hc'. subst c c'.
  assert (Hfirst : Py.slice (Py.slice text (800 * k) (800 * k + 1000)) 800 1000
                   = Py.slice (Py.slice text (800 * S k) (800 * S k + 1000)) 0 200).
  { unfold Py.slice. rewrite !substring_substring. f_equal; lia. }
  split; [exact Hfirst|].
  split; [unfold Py.slice; rewrite !substring_substring; f_equal; lia|].
  split.
  { unfold Py.slice at 2 4. replace (1000 - 800) with 200 by lia.
    replace (800 - 0) with 800 by lia.
    rewrite (substring_app _ 0 800 200).
    symmetry. apply (slice_short _ 1000). rewrite slice_length. lia. }
  split; [rewrite !slice_length; lia|]. split; [rewrite !slice_length; lia|].
  split; [rewrite !slice_length; lia|]. split; [rewrite !slice_length; lia|].
  intros Hshort. rewrite Hfirst. by apply slice_short.
Qed.

(** ** Ingestion and search *)

Lemma zip3_Forall (P : string → Prop) (Q : gmap string string → Prop)
    (docs ids : list string) (metas : list (gmap string string)) :
  Forall P docs → Forall Q metas →
  Forall (λ e, P (Chroma.document e) ∧ Q (Chroma.metadata e)) (Chroma.zip3 docs ids metas).
Proof.
  intros Hd. revert ids metas.
  induction Hd as [|d docs Hd _ IH]; intros [|i ids] [|m metas] Hm; simpl; try constructor.
  - split; [done|]. by inversion Hm.
  - apply IH. by inversion Hm.
Qed.

Lemma ingest_pdf_cases (w : World) (s : State) (file_content : list byte)
    (filename : string) (user_id : Z) :
  ∃ added : list Chroma.Entry,
    outcome (ingest_pdf file_content filename user_id w s) = Ok (length added) ∧
    index (final (ingest_pdf file_content filename user_id w s)) = index s ++ added ∧
    db (final (ingest_pdf file_content filename user_id w s)) = db s ∧
    trace (ingest_pdf file_content filename user_id w s) = [] ∧
    Forall (ingested_by user_id filename) added.
Proof.
  unfold ingest_pdf, parse_chunk_sync, read_pdf, collection_add, fresh_uuids, fault_or.
  run_monad.
  destruct (collection_enabled w); simpl;
    [|exists []; by rewrite app_nil_r].
  destruct (pdf_pages w file_content) as [pages|e]; simpl;
    [|exists []; by rewrite app_nil_r].
  destruct (Py.truthy (Py.strip (extracted_text pages))); simpl;
    [|exists []; by rewrite app_nil_r].
  destruct (chroma_fault w OpAdd); simpl;
    [exists []; by rewrite app_nil_r|].
  eexists. split; [|split; [unfold Chroma.add; reflexivity|]].
  - rewrite zip3_length; rewrite ?length_fmap, ?length_seq, ?length_replicate; done.
  - split; [done|]. split; [done|].
    apply (zip3_Forall (λ d, 1 ≤ Py.len d ≤ 1000)
                       (λ m, m = chunk_metadata user_id filename)).
    + apply chunk_sizes.
    + apply Forall_replicate. done.
Qed.

Lemma filter_other_user (A B : Z) (filename : string) (added : list Chroma.Entry) :
  B ≠ A →
  Forall (ingested_by B filename) added →
  filter (Chroma.matches "user_id" (Py.str_int A)) added = [].
Proof.
  intros Hne. induction 1 as [|e added [_ He] _ IH]; [done|].
  rewrite filter_cons_False; [done|].
  unfold Chroma.matches. rewrite He. unfold chunk_metadata. rewrite lookup_insert_eq.
  intros [= Heq]. by apply str_int_inj in Heq.
Qed.

(** X5.  An upload by user [B] changes nothing of what a search finds for
    another user [A]: the hits and the answer of [_search_pdf_sync] are the
    same before and after. *)
Theorem ingest_does_not_affect_other_users (w : World) (s : State)
    (file_content : list byte) (filename : string) (A B : Z) (q : string) (n : nat) :
  B ≠ A →
  let after := final (ingest_pdf file_content filename B w s) in
  Chroma.nearest (embed_distance w) q n "user_id" (Py.str_int A) (index after) =
  Chroma.nearest (embed_distance w) q n "user_id" (Py.str_int A) (index s) ∧
  outcome (_search_pdf_sync q (Py.str_int A) w after) =
  outcome (_search_pdf_sync q (Py.str_int A) w s).
Proof.
  intros Hne after. subst after.
  destruct (ingest_pdf_cases w s file_content filename B)
    as (added & _ & Hindex & _ & _ & Hadded).
  assert (Hsame : Chroma.nearest (embed_distance w) q n "user_id" (Py.str_int A)
                    (index (final (ingest_pdf file_content filename B w s))) =
                  Chroma.nearest (embed_distance w) q n "user_id" (Py.str_int A) (index s)).
  { unfold Chroma.nearest. rewrite Hindex, filter_app.
    rewrite (filter_other_user A B filename added Hne Hadded). by rewrite app_nil_r. }
  split; [done|].
  rewrite !_search_pdf_sync_run. unfold outcome, fault_or, Chroma.query_documents.
  destruct (collection_enabled w); [|done].
  destruct (chroma_fault w (OpQuery q)); cbn [fst snd]; [done|].
  unfold Chroma.nearest in *. rewrite Hindex, filter_app.
  rewrite (filter_other_user A B filename added Hne Hadded). by rewrite app_nil_r.
Qed.

(** X4.  [ingest_pdf] never raises and reports what it stored: the returned
    count is the number of entries appended to the index, each a chunk of 1
    to 1000 characters tagged with the uploader and the file name; the
    relational tables are untouched.  With the index disabled, an unreadable
    PDF or a rejected insert it returns 0 and stores nothing. *)
Theorem ingest_pdf_accounting (w : World) (s : State) (file_content : list byte)
    (filename : string) (user_id : Z) :
  let run := ingest_pdf file_content filename user_id w s in
  (∃ added : list Chroma.Entry,
     outcome run = Ok (length added) ∧
     index (final run) = index s ++ added ∧
     Forall (ingested_by user_id filename) added) ∧
  db (final run) = db s ∧
  (collection_enabled w = false ∨ (∃ e, pdf_pages w file_content = Raise e) ∨
   (∃ e, chroma_fault w OpAdd = Some e) →
   outcome run = Ok 0 ∧ index (final run) = index s).
Proof.
  intros run. subst run.
  destruct (ingest_pdf_cases w s file_content filename user_id)
    as (added & Hout & Hindex & Hdb & _ & Hadded).
  split; [by exists added|]. split; [done|].
  unfold ingest_pdf, parse_chunk_sync, read_pdf, collection_add, fresh_uuids, fault_or.
  run_monad. intros [Hcol|[[e Hpdf]|[e Hadd]]].
  - by rewrite Hcol.
  - destruct (collection_enabled w); simpl; [|done]. by rewrite Hpdf.
  - destruct (collection_enabled w); simpl; [|done].
    destruct (pdf_pages w file_content); simpl; [|done].
    destruct (Py.truthy (Py.strip (extracted_text a))); simpl; [|done].
    by rewrite Hadd.
Qed.

Lemma truthy_of_len (d : string) : 1 ≤ Py.len d → Py.truthy d = true.
Proof. destruct d; [simpl; lia|done]. Qed.

Lemma nonblank_nonempty (text : string) : Py.truthy (Py.strip text) = true → 1 ≤ Py.len text.
Proof. destruct text; [discriminate|simpl; lia]. Qed.

Lemma existsb_truthy_all (docs : list string) :
  docs ≠ [] → Forall (λ d, Py.truthy d = true) docs → existsb Py.truthy docs = true.
Proof.
  intros Hne Hall. destruct Hall as [|d rest Hd _]; [done|].
  cbn [existsb]. by rewrite Hd.
Qed.

(** Non-greeting queries that reach the index and find a text keep it. *)
Lemma resolve_context_with_document (w : World) (s : State) (q intent : string)
    (use_web : bool) (uid : Z) (ctx : string) (t : list Call) :
  Py.strip (Py.lower q) ∉ agent_greetings →
  intent = "PDF" ∨ (intent = "CHAT" ∧ collection_enabled w = true) →
  _search_pdf_sync q (Py.str_int uid) w s = (Ok (Some ctx), s, t) →
  Py.truthy ctx = true →
  resolve_context q intent use_web uid w s = (Ok (ctx, "Uploaded Document"), s, t).
Proof.
  intros Hgreet Hintent Hsearch Hctx. unfold resolve_context. run_monad.
  rewrite bool_decide_false by done.
  replace (bool_decide (intent = "PDF") || bool_decide (intent = "CHAT") && collection_enabled w)
    with true.
  2:{ destruct Hintent as [->|[-> ->]]; rewrite ?(bool_decide_true (_ = _)) by done;
        first [done | by destruct (bool_decide _)]. }
  rewrite Hsearch. simpl. rewrite Hctx. simpl. rewrite Hctx. simpl.
  by rewrite !app_nil_r.
Qed.

(** X6.  Upload, then ask: once a user's non-blank document is ingested (index
    available, PDF readable, insert and query accepted, no empty document
    stored before), that user's index search answers with a non-empty
    context, and a query that is not a greeting and is classified PDF or
    CHAT resolves to that context under the label "Uploaded Document". *)
Theorem upload_then_search_finds_document (w : World) (s : State)
    (file_content : list byte) (filename : string) (uid : Z) (pages : list string)
    (q : string) :
  collection_enabled w = true →
  pdf_pages w file_content = Ok pages →
  chroma_fault w OpAdd = None →
  chroma_fault w (OpQuery q) = None →
  Py.truthy (Py.strip (extracted_text pages)) = true →
  Forall (λ e, Py.truthy (Chroma.document e) = true) (index s) →
  let after := final (ingest_pdf file_content filename uid w s) in
  ∃ ctx,
    Py.truthy ctx = true ∧
    outcome (_search_pdf_sync q (Py.str_int uid) w after) = Ok (Some ctx) ∧
    ∀ intent use_web,
      Py.strip (Py.lower q) ∉ agent_greetings →
      intent = "PDF" ∨ intent = "CHAT" →
      outcome (resolve_context q intent use_web uid w after) = Ok (ctx, "Uploaded Document").
Proof.
  intros Hcol Hpdf Hadd Hquery Hblank Hstore after.
  destruct (ingest_pdf_cases w s file_content filename uid)
    as (added & Hout & Hindex & _ & _ & Hadded).
  fold after in Hindex.
  rewrite (ingest_pdf_run w s file_content filename uid pages Hcol Hpdf Hadd) in Hout.
  cbv zeta in Hout. rewrite Hblank in Hout. unfold outcome in Hout. cbn [fst snd] in Hout.
  injection Hout as Hlen. rewrite chunk_text_length in Hlen.
  apply nonblank_nonempty in Hblank.
  assert (Hpos : 1 ≤ length added).
  { rewrite <- Hlen. apply Nat.div_str_pos. lia. }
  set (hits := Chroma.nearest (embed_distance w) q 5 "user_id" (Py.str_int uid) (index after)).
  assert (Hall : Forall (λ e, Py.truthy (Chroma.document e) = true) (index after)).
  { rewrite Hindex. apply Forall_app. split; [done|].
    eapply Forall_impl; [exact Hadded|]. intros e [He _]. apply truthy_of_len. lia. }
  assert (Hhits : Forall (λ e, Py.truthy (Chroma.document e) = true) hits).
  { apply Forall_forall. intros e He. apply nearest_scoped in He as [He _].
    rewrite Forall_forall in Hall. by apply Hall. }
  assert (Hne : hits ≠ []).
  { subst hits. unfold Chroma.nearest. rewrite Hindex, filter_app.
    destruct added as [|e added]; [simpl in Hpos; lia|].
    rewrite filter_cons_True.
    2:{ apply Forall_cons in Hadded as [[_ He] _]. unfold Chroma.matches.
        rewrite He. unfold chunk_metadata. by rewrite lookup_insert_eq. }
    intros Hnil. apply (f_equal length) in Hnil.
    rewrite length_take, merge_sort_Permutation, length_app in Hnil.
    cbn [length] in Hnil. lia. }
  set (docs := Chroma.document <$> hits).
  assert (Hdocs : existsb Py.truthy docs = true).
  { apply existsb_truthy_all.
    - subst docs. by destruct hits.
    - subst docs. by apply Forall_fmap. }
  assert (Hrun : _search_pdf_sync q (Py.str_int uid) w after =
                 (Ok (Some (Py.join Py.nl docs)), after,
                  [CallIndexQuery q (Py.str_int uid) (Ok [docs])])).
  { rewrite _search_pdf_sync_run, Hcol. unfold fault_or. rewrite Hquery. cbv zeta.
    unfold Chroma.query_documents. fold hits. fold docs.
    by rewrite (hit_nonempty _ Hdocs). }
  exists (Py.join Py.nl docs). split; [by apply truthy_join_nl|].
  split; [by rewrite Hrun|].
  intros intent use_web Hgreet Hintent.
  erewrite resolve_context_with_document; [done|done| |exact Hrun|by apply truthy_join_nl].
  destruct Hintent; auto.
Qed.

(** ** The agent and its requests *)

Lemma calls_app (P : Call → bool) (t1 t2 : list Call) :
  calls P (t1 ++ t2) = calls P t1 + calls P t2.
Proof. unfold calls. by rewrite List.filter_app, length_app. Qed.

Lemma calls_existsb (P : Call → bool) (t : list Call) :
  existsb P t = true ↔ 0 < calls P t.
Proof.
  unfold calls. induction t as [|c t IH]; simpl; [split; [done|lia]|].
  destruct (P c); simpl; [split; [lia|done]|done].
Qed.

Lemma calls_single (P : Call → bool) (c : Call) : calls P [c] = if P c then 1 else 0.
Proof. unfold calls. simpl. by destruct (P c). Qed.

(** The retrieval step, by its requests: at most one index query, then at
    most one web search, the latter only when allowed and asked for. *)
Lemma resolve_context_policy (w : World) (s : State) (q intent : string) (use_web : bool)
    (uid : Z) :
  ∃ ctx label t,
    resolve_context q intent use_web uid w s = (Ok (ctx, label), s, t) ∧
    (label = "General Knowledge" ∨ label = "Uploaded Document" ∨ label = "Web Search") ∧
    (label = "Uploaded Document" → calls is_index_call t = 1) ∧
    (label = "Web Search" → calls is_web_call t = 1) ∧
    (0 < calls is_web_call t →
       use_web = true ∧ tavily_enabled w = true ∧ (intent = "WEB" ∨ intent = "PDF") ∧
       Py.strip (Py.lower q) ∉ agent_greetings) ∧
    (0 < calls is_index_call t →
       collection_enabled w = true ∧ (intent = "PDF" ∨ intent = "CHAT") ∧
       Py.strip (Py.lower q) ∉ agent_greetings) ∧
    calls is_index_call t ≤ 1 ∧ calls is_web_call t ≤ 1 ∧ calls is_llm_call t = 0.
Proof.
  unfold resolve_context. run_monad.
  case_bool_decide as Hgreet.
  { do 3 eexists. split; [reflexivity|]. unfold calls; simpl.
    repeat split; auto; try done; lia. }
  repeat (rewrite ?_search_pdf_sync_run, ?_search_web_sync_run in *;
          case_match; simplify_eq/=);
    (do 3 eexists; split; [reflexivity|]); unfold calls; simpl;
    repeat match goal with
           | H : _ && _ = true |- _ => apply andb_prop in H as [? ?]
           | H : _ || _ = true |- _ => apply orb_prop in H
           | H : bool_decide _ = true |- _ => apply bool_decide_eq_true_1 in H
           | H : negb _ = true |- _ => apply negb_true_iff in H
           end;
    repeat split; try done; try lia; try (intros; lia); try (intros; discriminate);
    try (intros _; repeat split; auto).
  all: repeat match goal with
              | H : _ ∨ _ |- _ => destruct H
              | H : _ && _ = true |- _ => apply andb_prop in H as [? ?]
              | H : bool_decide _ = true |- _ => apply bool_decide_eq_true_1 in H
              end; subst; auto; try congruence; try done.
Qed.

Lemma determine_intent_calls (w : World) (s : State) (q : string) :
  let t := trace (determine_intent q w s) in
  calls is_llm_call t ≤ 1 ∧ calls is_index_call t = 0 ∧ calls is_web_call t = 0.
Proof.
  cbv zeta. rewrite determine_intent_run. unfold trace, calls.
  case_bool_decide; simpl; repeat split; lia.
Qed.

(** X7.  When the agent calls the retrieval services: a web search is
    requested only if the caller allowed it, the Tavily client exists, the
    query is not a greeting and its intent is WEB or PDF; the index is
    queried only if the collection exists, the query is not a greeting and
    its intent is PDF or CHAT. *)
Theorem retrieval_policy (w : World) (s : State) (query : string)
    (history : list Msg) (use_web : bool) (uid : Z) (si : option string)
    (temperature : float) :
  let run := run_agent query history use_web uid si temperature w s in
  let intent := outcome (determine_intent query w s) in
  (0 < calls is_web_call (trace run) →
     use_web = true ∧ tavily_enabled w = true ∧
     (intent = Ok "WEB" ∨ intent = Ok "PDF") ∧
     Py.strip (Py.lower query) ∉ agent_greetings) ∧
  (0 < calls is_index_call (trace run) →
     collection_enabled w = true ∧
     (intent = Ok "PDF" ∨ intent = Ok "CHAT") ∧
     Py.strip (Py.lower query) ∉ agent_greetings).
Proof.
  intros run intent. subst run intent.
  destruct (determine_intent_total w s query) as (intent & t1 & Hi & _).
  destruct (resolve_context_policy w s query intent use_web uid)
    as (ctx & label & t2 & Hr & _ & _ & _ & Hweb & Hindex & _).
  destruct (determine_intent_calls w s query) as (_ & Hi1 & Hi2).
  rewrite (run_agent_run _ _ _ _ _ _ _ _ _ _ _ _ _ Hi Hr).
  rewrite Hi in *. unfold trace, outcome in *. cbn [fst snd] in *.
  rewrite !calls_app, !calls_single, Hi1, Hi2. cbn [is_web_call is_index_call].
  rewrite !Nat.add_0_r, !Nat.add_0_l.
  split.
  - intros H. destruct (Hweb H) as (? & ? & [->| ->] & ?); auto.
  - intros H. destruct (Hindex H) as (? & [->| ->] & ?); auto.
Qed.

(** A greeting followed by a no-break space is not searched for, whatever
    the classifier would answer. *)
Example greeting_with_nbsp_is_not_searched :
  let run := run_agent ("hey" +:+ Sample.nbsp) [] true Demo.alice None 0.5%float
               Sample.web_minded Demo.two_users in
  calls is_web_call (trace run) = 0 ∧ calls is_index_call (trace run) = 0 ∧
  calls is_llm_call (trace run) = 1.
Proof. by vm_compute. Qed.

(** X8.  [run_agent] always returns a text and one of the four source labels,
    changes neither store, and retries nothing: per query at most one index
    query, at most one web search and one or two completion requests.  The
    label "Uploaded Document" is returned only after an index query, "Web
    Search" only after a web search. *)
Theorem run_agent_always_answers (w : World) (s : State) (query : string)
    (history : list Msg) (use_web : bool) (uid : Z) (si : option string)
    (temperature : float) :
  let run := run_agent query history use_web uid si temperature w s in
  (∃ text label,
     outcome run = Ok (text, label) ∧ label ∈ source_labels ∧
     (label = "Uploaded Document" → calls is_index_call (trace run) = 1) ∧
     (label = "Web Search" → calls is_web_call (trace run) = 1)) ∧
  final run = s ∧
  calls is_index_call (trace run) ≤ 1 ∧
  calls is_web_call (trace run) ≤ 1 ∧
  1 ≤ calls is_llm_call (trace run) ≤ 2.
Proof.
  intros run. subst run.
  destruct (determine_intent_total w s query) as (intent & t1 & Hi & _).
  destruct (resolve_context_policy w s query intent use_web uid)
    as (ctx & label & t2 & Hr & Hlabel & Hdoc & Hweb & _ & _ & Hix & Hwb & Hllm).
  destruct (determine_intent_calls w s query) as (Hi0 & Hi1 & Hi2).
  rewrite (run_agent_run _ _ _ _ _ _ _ _ _ _ _ _ _ Hi Hr).
  rewrite Hi in *. unfold trace, outcome, final in *. cbn [fst snd] in *.
  rewrite !calls_app, !calls_single, Hi1, Hi2, Hllm.
  cbn [is_web_call is_index_call is_llm_call]. rewrite !Nat.add_0_r, !Nat.add_0_l.
  split; [|repeat split; try done; lia].
  unfold source_labels. destruct (mistral w _ _ _) as [text|e].
  - exists text, label. split; [done|]. rewrite !elem_of_cons.
    split; [tauto|]. split; done.
  - eexists _, "Error". split; [done|]. rewrite !elem_of_cons.
    split; [tauto|]. split; discriminate.
Qed.

(** ** Sessions, histories and the reset *)

(** What [ensure_session] leaves behind when it succeeds. *)
Lemma ensure_session_owned (req : ChatRequest) (user : Orm.User) (w : World) (s : State)
    (s0 : State) (t0 : list Call) :
  ensure_session req user w s = (Ok tt, s0, t0) →
  t0 = [] ∧ index s0 = index s ∧
  is_Some (Orm.first_session (req_session_id req) (Orm.user_pk user) (db s0)) ∧
  Orm.messages (db s0) = Orm.messages (db s) ∧
  (∀ sid, sid ≠ req_session_id req →
     Orm.sessions (db s0) !! sid = Orm.sessions (db s) !! sid) ∧
  (is_Some (Orm.sessions (db s) !! req_session_id req) → s0 = s).
Proof.
  unfold ensure_session, db_first_session, db_add_session, Orm.first_session.
  run_monad.
  destruct (Orm.sessions (db s) !! req_session_id req) as [row|] eqn:Hrow; simpl.
  - case_bool_decide as Hown; simpl.
    + intros [= <- <-]. rewrite Hrow. rewrite bool_decide_true by done. eauto 10.
    + rewrite Hrow. simpl. discriminate.
  - rewrite Hrow. simpl. intros [= <- <-]. cbn [db index Orm.sessions Orm.messages].
    rewrite lookup_insert_eq. cbn [Orm.user_id]. rewrite bool_decide_true by done.
    repeat split; eauto.
    + intros sid Hne. by rewrite lookup_insert_ne.
    + by intros [? ?].
Qed.

Lemma ensure_session_foreign (req : ChatRequest) (user : Orm.User) (w : World) (s : State)
    (row : Orm.ChatSession) :
  Orm.sessions (db s) !! req_session_id req = Some row →
  Orm.user_id row ≠ Orm.user_pk user →
  ensure_session req user w s = (Raise integrity_error, s, []).
Proof.
  intros Hrow Hown.
  unfold ensure_session, db_first_session, db_add_session, Orm.first_session.
  run_monad. rewrite Hrow. rewrite bool_decide_false by done. simpl. by rewrite Hrow.
Qed.

(** X9.  A chat request that names a session id owned by another user fails
    on the primary key of the session it tries to create: nothing is written
    and the engine is not called. *)
Theorem chat_rejects_foreign_session (agent : Agent) (w : World) (s : State)
    (req : ChatRequest) (user : Orm.User) (row : Orm.ChatSession) :
  Orm.sessions (db s) !! req_session_id req = Some row →
  Orm.user_id row ≠ Orm.user_pk user →
  chat_endpoint_with agent req user w s = (Raise integrity_error, s, []).
Proof.
  intros Hrow Hown. unfold chat_endpoint_with.
  unfold mbind at 1. unfold M_bind.
  by rewrite (ensure_session_foreign req user w s row Hrow Hown).
Qed.

(** The state a chat request that is answered ends in. *)
Lemma chat_endpoint_with_final (agent : Agent) (w : World) (s : State)
    (req : ChatRequest) (user : Orm.User) (reply : ChatResponse) :
  preserves_db agent →
  let run := chat_endpoint_with agent req user w s in
  outcome run = Ok reply →
  is_Some (Orm.first_session (req_session_id req) (Orm.user_pk user) (db (final run))) ∧
  Orm.messages (db (final run)) =
    Orm.messages (db s) ++ [Orm.mkMessage (req_session_id req) "user" (req_query req);
                            Orm.mkMessage (req_session_id req) "model" (response reply)] ∧
  (∀ sid, sid ≠ req_session_id req →
     Orm.sessions (db (final run)) !! sid = Orm.sessions (db s) !! sid).
Proof.
  intros Hagent run. cbv zeta.
  assert (Hrun : run = chat_endpoint_with agent req user w s) by done.
  clearbody run. unfold chat_endpoint_with in Hrun.
  unfold mbind at 1 in Hrun. unfold M_bind in Hrun.
  destruct (ensure_session req user w s) as [[[[]|e0] s0] t0] eqn:Hens;
    [|subst run; intros ?; discriminate].
  apply ensure_session_owned in Hens as (-> & _ & Hown & Hmsgs & Hother & _).
  assert (Hsess : is_Some (Orm.sessions (db s0) !! req_session_id req)).
  { unfold Orm.first_session in Hown. destruct (Orm.sessions (db s0) !! _); [eauto|].
    by destruct Hown. }
  unfold mbind at 1 in Hrun. unfold M_bind in Hrun.
  rewrite db_add_message_run in Hrun by done.
  set (s1 := mkState _ _ _) in Hrun.
  unfold mbind at 1 in Hrun. unfold M_bind, try_except in Hrun.
  pose proof (Hagent (req_query req) (history_fmt req) (req_use_web req)
                (Orm.user_pk user) (req_system_instruction req) (req_temperature req)
                w s1) as Hdb.
  assert (Hs1 : db s1 = Orm.mkDb (Orm.sessions (db s0))
                  (Orm.messages (db s) ++
                   [Orm.mkMessage (req_session_id req) "user" (req_query req)]))
    by (subst s1; cbn [db]; by rewrite Hmsgs).
  assert (Hsess1 : is_Some (Orm.sessions (db s1) !! req_session_id req)) by done.
  clearbody s1.
  destruct (agent _ _ _ _ _ _ w s1) as [[[[text label]|e] s2] t2] eqn:Hagent_run;
    unfold final in Hdb; cbn [fst snd] in Hdb;
    unfold mret, M_ret in Hrun; cbn beta iota zeta in Hrun;
    unfold mbind at 1 in Hrun; unfold M_bind in Hrun;
    rewrite db_add_message_run in Hrun by (rewrite Hdb; done);
    cbn beta iota zeta in Hrun; subst run;
    unfold outcome, final; cbn [fst snd db];
    intros [= <-]; cbn [response source resp_session_id];
    rewrite Hdb, Hs1; cbn [Orm.sessions Orm.messages]; rewrite <- app_assoc;
    (split; [by unfold Orm.first_session in *|]); (split; [done|]); exact Hother.
Qed.

Lemma get_history_run (sid : string) (user : Orm.User) (w : World) (s : State) :
  get_history sid user w s =
    match Orm.first_session sid (Orm.user_pk user) (db s) with
    | Some _ =>
        (Ok ((λ m, mkMsg (Orm.role m) (Orm.content m))
               <$> select_order w (filter (λ m, Orm.session_id m = sid)
                                          (Orm.messages (db s)))), s, [])
    | None => (Raise (HTTPException 404 "Session not found"), s, [])
    end.
Proof.
  unfold get_history, db_first_session, db_session_messages. run_monad.
  by destruct (Orm.first_session sid (Orm.user_pk user) (db s)).
Qed.

(** Whatever order the backend picks, the rows it returns for a session are
    the rows of that session in the log; a backend that keeps the order of
    insertion returns them as the log lists them. *)
Lemma select_order_history (w : World) (sid : string) (d : Orm.Db) :
  let msgs := (λ m, mkMsg (Orm.role m) (Orm.content m))
                <$> select_order w (filter (λ m, Orm.session_id m = sid) (Orm.messages d)) in
  msgs ≡ₚ session_history sid d ∧
  ((∀ rows, select_order w rows = rows) → msgs = session_history sid d).
Proof.
  unfold session_history. split.
  - apply fmap_Permutation, select_order_perm.
  - intros Hid. by rewrite Hid.
Qed.

Lemma session_history_app (sid : string) (sessions : gmap string Orm.ChatSession)
    (old new : list Orm.ChatMessage) :
  session_history sid (Orm.mkDb sessions (old ++ new)) =
  session_history sid (Orm.mkDb sessions old) ++ session_history sid (Orm.mkDb sessions new).
Proof. unfold session_history. cbn [Orm.messages]. by rewrite filter_app, fmap_app. Qed.

(** X10.  After a chat request that was answered, [get_history] of that
    session by the same user answers with the messages the session had before
    the request together with the query (role "user") and the response (role
    "model"), each as often as the log holds it and nothing else.  The query
    of [get_history] has no ORDER BY, so the order of the answer is the
    backend's; on a backend that returns rows in the order of insertion it is
    the previous history followed by the query and the response. *)
Theorem chat_then_history (agent : Agent) (w : World) (s : State)
    (req : ChatRequest) (user : Orm.User) (reply : ChatResponse) :
  preserves_db agent →
  let run := chat_endpoint_with agent req user w s in
  outcome run = Ok reply →
  let logged := session_history (req_session_id req) (db s) ++
                [mkMsg "user" (req_query req); mkMsg "model" (response reply)] in
  ∃ msgs,
    outcome (get_history (req_session_id req) user w (final run)) = Ok msgs ∧
    msgs ≡ₚ logged ∧
    ((∀ rows, select_order w rows = rows) → msgs = logged).
Proof.
  intros Hagent run Hok logged.
  destruct (chat_endpoint_with_final agent w s req user reply Hagent Hok)
    as ([row Hrow] & Hmsgs & _).
  fold run in Hrow, Hmsgs. rewrite get_history_run, Hrow. unfold outcome. cbn [fst snd].
  eexists. split; [reflexivity|].
  assert (Hlog : session_history (req_session_id req) (db (final run)) = logged).
  { subst logged. unfold session_history. rewrite Hmsgs, filter_app, fmap_app. f_equal.
    rewrite filter_cons_True by done. rewrite filter_cons_True by done. done. }
  rewrite <- Hlog. apply select_order_history.
Qed.


Lemma filter_none {A} (P : A → Prop) `{∀ x, Decision (P x)} (l : list A) :
  (∀ x, ¬ P x) → filter P l = [].
Proof.
  intros HP. induction l as [|x l IH]; [done|]. by rewrite filter_cons_False.
Qed.

(** X12.  [delete_session] by the owner removes the session and its messages
    and nothing else: every other session and its history, and the document
    index, are as before.  For anyone else it raises 404 "Not found" and
    changes nothing. *)
Theorem delete_session_removes_only_that_session (sid : string) (user : Orm.User)
    (w : World) (s : State) :
  let run := delete_session sid user w s in
  match Orm.first_session sid (Orm.user_pk user) (db s) with
  | Some _ =>
      outcome run = Ok (mkStatusReply "success" "Chat deleted") ∧
      Orm.sessions (db (final run)) !! sid = None ∧
      Orm.messages (db (final run)) =
        filter (λ m, Orm.session_id m ≠ sid) (Orm.messages (db s)) ∧
      session_history sid (db (final run)) = [] ∧
      (∀ sid', sid' ≠ sid →
         Orm.sessions (db (final run)) !! sid' = Orm.sessions (db s) !! sid' ∧
         session_history sid' (db (final run)) = session_history sid' (db s)) ∧
      index (final run) = index s
  | None => run = (Raise (HTTPException 404 "Not found"), s, [])
  end.
Proof.
  intros run. subst run.
  unfold delete_session, db_first_session, db_delete_session. run_monad.
  destruct (Orm.first_session sid (Orm.user_pk user) (db s)) as [row|]; simpl; [|done].
  split; [done|]. split; [apply lookup_delete_eq|]. split; [done|].
  unfold session_history, Orm.cascade_delete. cbn [Orm.messages Orm.sessions]. split.
  - rewrite list_filter_filter.
    rewrite (filter_none (λ m, Orm.session_id m = sid ∧ Orm.session_id m ≠ sid)); [done|].
    by intros m [? ?].
  - split; [|done]. intros sid' Hne. split; [by apply lookup_delete_ne|].
    rewrite list_filter_filter_l; [done|]. intros m ->. done.
Qed.

(** An index reset that cannot reach or change the collection leaves it as it is. *)
Lemma reset_memory_failing (w : World) (s : State) :
  collection_enabled w = false ∨ is_Some (chroma_fault w OpGet)
    ∨ is_Some (chroma_fault w OpDelete) →
  reset_memory w s = (Ok false, s, []).
Proof.
  unfold reset_memory, clear_all_sync, collection_get_ids, collection_delete, fault_or.
  run_monad. intros [Hcol|[[e He]|[e He]]].
  - by rewrite Hcol.
  - destruct (collection_enabled w); simpl; [|done]. by rewrite He.
  - destruct (collection_enabled w); simpl; [|done].
    destruct (chroma_fault w OpGet); simpl; [done|].
    destruct (Chroma.get_ids (index s)); simpl; [done|]. by rewrite He.
Qed.

(** X13.  When the SQL delete is not rejected, [reset_db] answers success
    whatever the index reset did: with the collection missing or its [get] or
    [delete] call raising, the answer is still success and the index still
    holds every chunk. *)
Theorem reset_db_success_despite_index_failure (u : Orm.User) (w : World) (s : State) :
  fk_enforced w && Orm.referenced (Orm.user_pk u) (db s) = false →
  let run := reset_db u w s in
  outcome run = Ok (mkStatusReply "success" "History and PDF Memory cleared!") ∧
  (collection_enabled w = false ∨ is_Some (chroma_fault w OpGet)
     ∨ is_Some (chroma_fault w OpDelete) →
   index (final run) = index s).
Proof.
  intros Hfk run. subst run.
  unfold reset_db, db_bulk_delete_sessions. run_monad. rewrite Hfk. simpl.
  split.
  - match goal with |- context [reset_memory w ?s'] =>
      destruct (reset_memory_total w s') as (b & ix & ->) end.
    done.
  - intros Hfail. by rewrite (reset_memory_failing _ _ Hfail).
Qed.

Lemma reset_db_success_despite_index_failure_witness :
  let run := reset_db Demo.alice_user Sample.index_down Demo.two_users in
  fk_enforced Sample.index_down
    && Orm.referenced (Orm.user_pk Demo.alice_user) (db Demo.two_users) = false ∧
  is_Some (chroma_fault Sample.index_down OpGet) ∧
  outcome run = Ok (mkStatusReply "success" "History and PDF Memory cleared!") ∧
  index (final run) = [Demo.alice_chunk; Demo.bob_chunk].
Proof.
  intros run.
  destruct (reset_db_success_despite_index_failure Demo.alice_user Sample.index_down
              Demo.two_users eq_refl) as [Hok Hindex].
  split; [reflexivity|]. split; [by eexists|]. split; [exact Hok|].
  apply Hindex. right. left. by eexists.
Defined.

(** X14.  [reset_db] never deletes a session of another user; when it answers
    success no session of the caller is left; on a backend that enforces
    foreign keys, with a message referencing one of the caller's sessions, it
    raises 500 and changes nothing. *)
Theorem reset_db_deletes_only_callers_sessions (u : Orm.User) (w : World) (s : State) :
  let run := reset_db u w s in
  (∀ sid row, Orm.sessions (db s) !! sid = Some row → Orm.user_id row ≠ Orm.user_pk u →
     Orm.sessions (db (final run)) !! sid = Some row) ∧
  (∀ reply, outcome run = Ok reply →
     ∀ sid row, Orm.sessions (db (final run)) !! sid = Some row →
       Orm.user_id row ≠ Orm.user_pk u ∧ Orm.sessions (db s) !! sid = Some row) ∧
  (fk_enforced w = true → Orm.referenced (Orm.user_pk u) (db s) = true →
     run = (Raise (HTTPException 500 "IntegrityError"), s, [])).
Proof.
  intros run. subst run.
  unfold reset_db, db_bulk_delete_sessions. run_monad.
  destruct (fk_enforced w && Orm.referenced (Orm.user_pk u) (db s)) eqn:Hfk; simpl.
  - split; [done|]. split; [intros reply [=]|done].
  - match goal with |- context [reset_memory w ?s'] =>
      destruct (reset_memory_total w s') as (b & ix & ->) end.
    cbn [fst snd db Orm.sessions]. unfold Orm.sessions_not_of.
    split; [|split].
    + intros sid row Hrow Hne. by apply map_lookup_filter_Some.
    + intros reply _ sid row Hrow. apply map_lookup_filter_Some in Hrow as [? ?]. done.
    + intros Hf Hr. by rewrite Hf, Hr in Hfk.
Qed.

(** X15.  The history handed to the engine is the last six entries of the
    request's history, in order and with their contents; an entry keeps the
    role "user" and gets the role "assistant" for any other role. *)
Theorem history_fmt_window (req : ChatRequest) :
  length (history_fmt req) = min 6 (length (req_history req)) ∧
  Forall (λ m, msg_role m = "user" ∨ msg_role m = "assistant") (history_fmt req) ∧
  msg_content <$> history_fmt req =
    msg_content <$> drop (length (req_history req) - 6) (req_history req) ∧
  (∀ i m, history_fmt req !! i = Some m →
     ∃ m0, req_history req !! (length (req_history req) - 6 + i) = Some m0 ∧
           msg_content m = msg_content m0 ∧
           (msg_role m = "user" ↔ msg_role m0 = "user")).
Proof.
  unfold history_fmt, Py.last_n. split.
  - rewrite length_fmap, length_drop. lia.
  - split.
    + apply Forall_fmap, Forall_forall. intros m _. simpl. case_bool_decide; auto.
    + split.
      * rewrite <- list_fmap_compose. by apply list_fmap_ext.
      * intros i m Hm. rewrite list_lookup_fmap, lookup_drop in Hm.
        destruct (req_history req !! _) as [m0|]; [|done]. injection Hm as <-.
        exists m0. split; [done|]. split; [done|]. simpl.
        case_bool_decide; split; try done.
Qed.

(** X16.  [upload_pdf] answers 500 only when the file cannot be read.  Once it
    is read the answer is success with [chunks_indexed] equal to the number of
    entries added to the index, which is 0 when the index is disabled, the PDF
    is unreadable or the insert is rejected. *)
Theorem upload_pdf_reports_count (file : UploadFile) (user : Orm.User) (w : World) (s : State) :
  let run := upload_pdf file user w s in
  match upload_read file with
  | Ok content =>
      let ingest := ingest_pdf content (upload_filename file) (Orm.user_pk user) w s in
      final run = final ingest ∧
      ∃ added,
        outcome run = Ok (mkUploadReply "success" (length added)) ∧
        index (final run) = index s ++ added ∧
        (collection_enabled w = false ∨ (∃ e, pdf_pages w content = Raise e) ∨
         (∃ e, chroma_fault w OpAdd = Some e) → added = [])
  | Raise e => run = (Raise (HTTPException 500 (str_exn e)), s, [])
  end.
Proof.
  intros run. subst run. unfold upload_pdf. unfold try_except, mbind, M_bind, lift_result.
  destruct (upload_read file) as [content|e]; [|done]. cbv zeta.
  destruct (ingest_pdf_cases w s content (upload_filename file) (Orm.user_pk user))
    as (added & Hout & Hindex & _ & Htrace & _).
  destruct (ingest_pdf content (upload_filename file) (Orm.user_pk user) w s)
    as [[[n|e] s'] t] eqn:Hrun; unfold outcome, final, trace in *; cbn [fst snd] in *;
    [|discriminate].
  injection Hout as ->. unfold mret, M_ret. split; [done|].
  exists added. split; [done|]. split; [done|].
  intros Hfail. 
  assert (Hzero : (ingest_pdf content (upload_filename file) (Orm.user_pk user) w s).1.1 = Ok 0).
  { revert Hfail. clear.
    unfold ingest_pdf, parse_chunk_sync, read_pdf, collection_add, fresh_uuids, fault_or.
    run_monad. intros [Hcol|[[e Hpdf]|[e Hadd]]].
    - by rewrite Hcol.
    - destruct (collection_enabled w); simpl; [|done]. by rewrite Hpdf.
    - destruct (collection_enabled w); simpl; [|done].
      destruct (pdf_pages w content); simpl; [|done].
      destruct (Py.truthy (Py.strip (extracted_text a))); simpl; [|done].
      by rewrite Hadd. }
  rewrite Hrun in Hzero. cbn [fst snd] in Hzero. injection Hzero as Hlen.
  by destruct added.
Qed.

(** ** The connection string and the accounts *)

Lemma prefix_split (p : string) : ∀ s,
  String.prefix p s = true → s = p +:+ drop_chars (String.length p) s.
Proof.
  induction p as [|c p IH]; intros s Hp; [by destruct s|].
  destruct s as [|c' s]; [discriminate|]. simpl in Hp.
  destruct (ascii_dec c c') as [->|]; [|discriminate].
  change (String c' s = String c' (p +:+ drop_chars (String.length p) s)).
  f_equal. by apply IH.
Qed.

Lemma replace_first_prefix (old new s : string) :
  String.prefix old s = true →
  replace_first old new s = new +:+ drop_chars (String.length old) s.
Proof. intros Hp. destruct s as [|c s]; cbn [replace_first]; by rewrite Hp. Qed.

(** X17.  The connection string after lines 14-15 of [database.py] never
    starts with "postgres://": that prefix is replaced by "postgresql://" and
    the rest kept, any other string is left as it is, and applying the step
    twice changes nothing more. *)
Theorem normalize_database_url_scheme (url : string) :
  startswith (normalize_database_url url) "postgres://" = false ∧
  (∀ rest, url = "postgres://" +:+ rest →
     normalize_database_url url = "postgresql://" +:+ rest) ∧
  (startswith url "postgres://" = false → normalize_database_url url = url) ∧
  normalize_database_url (normalize_database_url url) = normalize_database_url url.
Proof.
  assert (Hcases : (startswith url "postgres://" = true ∧
                    normalize_database_url url
                    = "postgresql://" +:+ drop_chars 11 url) ∨
                   (startswith url "postgres://" = false ∧
                    normalize_database_url url = url)).
  { unfold normalize_database_url.
    destruct (startswith url "postgres://") eqn:Hs.
    - left. split; [done|]. unfold startswith in Hs.
      destruct url as [|c url]; [discriminate|].
      change (Py.truthy (String c url)) with true. cbn [andb].
      by rewrite replace_first_prefix.
    - right. split; [done|]. by rewrite andb_false_r. }
  assert (Hfinal : startswith (normalize_database_url url) "postgres://" = false).
  { destruct Hcases as [[_ ->]|[? ->]]; done. }
  split; [done|]. split; [|split].
  - intros rest ->. destruct Hcases as [[_ ->]|[Hs _]]; [reflexivity|].
    vm_compute in Hs. destruct rest; discriminate.
  - intros Hs. destruct Hcases as [[Hs' _]|[_ ?]]; [congruence|done].
  - unfold normalize_database_url at 1. by rewrite Hfinal, andb_false_r.
Qed.

(** ** Accounts *)

Lemma find_by_email_Some (email : string) (users : list Auth.Account) (u : Auth.Account) :
  Auth.find_by_email email users = Some u → u ∈ users ∧ Auth.acc_email u = email.
Proof.
  unfold Auth.find_by_email. intros Hhead. apply head_Some in Hhead as [l Hl].
  assert (Hin : u ∈ filter (λ u, Auth.acc_email u = email) users)
    by (rewrite Hl; apply list_elem_of_here).
  apply list_elem_of_filter in Hin as [? ?]. done.
Qed.

Lemma find_by_email_None (email : string) (users : list Auth.Account) :
  Auth.find_by_email email users = None ↔ email ∉ Auth.acc_email <$> users.
Proof.
  unfold Auth.find_by_email. induction users as [|u users IH]; simpl.
  - split; [intros _ H; by apply elem_of_nil in H|done].
  - rewrite filter_cons. destruct (decide (Auth.acc_email u = email)) as [Heq|Hne]; simpl.
    + split; [done|]. intros Hnot. exfalso. apply Hnot. rewrite Heq. apply list_elem_of_here.
    + rewrite IH. rewrite elem_of_cons. intuition congruence.
Qed.

Lemma find_by_email_app (email : string) (users more : list Auth.Account) :
  Auth.find_by_email email (users ++ more) =
    match Auth.find_by_email email users with
    | Some u => Some u
    | None => Auth.find_by_email email more
    end.
Proof.
  unfold Auth.find_by_email. rewrite filter_app.
  by destruct (filter _ users).
Qed.

Lemma next_id_above (users : list Auth.Account) (u : Auth.Account) :
  u ∈ users → (Auth.acc_id u < Auth.next_id users)%Z.
Proof.
  unfold Auth.next_id. induction users as [|v users IH]; [by intros ?%elem_of_nil|].
  rewrite elem_of_cons. simpl. intros [->|Hin]; [lia|]. specialize (IH Hin). lia.
Qed.

Lemma well_formed_add (users : list Auth.Account) (email hashed role : string) :
  Auth.well_formed users →
  Auth.find_by_email email users = None →
  Auth.well_formed (users ++ [Auth.mkAccount (Auth.next_id users) email hashed true role]).
Proof.
  intros [Hemails Hids] Hnone. apply find_by_email_None in Hnone.
  unfold Auth.well_formed. rewrite !fmap_app. simpl. split.
  - apply NoDup_app. split; [done|]. split; [|apply NoDup_singleton].
    intros e He ->%list_elem_of_singleton. done.
  - apply NoDup_app. split; [done|]. split; [|apply NoDup_singleton].
    intros i Hi ->%list_elem_of_singleton.
    apply list_elem_of_fmap in Hi as (u & Hu & Hin).
    pose proof (next_id_above users u Hin). lia.
Qed.

Lemma same_id_same_account (users : list Auth.Account) (u v : Auth.Account) :
  NoDup (Auth.acc_id <$> users) → u ∈ users → v ∈ users →
  Auth.acc_id u = Auth.acc_id v → u = v.
Proof.
  induction users as [|x users IH]; [by intros _ ?%elem_of_nil|].
  rewrite fmap_cons, NoDup_cons, !elem_of_cons. intros [Hx Hnd] [->|Hu] [->|Hv] Hid; auto.
  - exfalso. apply Hx. rewrite Hid. by apply list_elem_of_fmap_2.
  - exfalso. apply Hx. rewrite <- Hid. by apply list_elem_of_fmap_2.
Qed.

Lemma set_admin_columns (uid : Z) (users : list Auth.Account) :
  Auth.acc_email <$> Auth.set_admin uid users = Auth.acc_email <$> users ∧
  Auth.acc_id <$> Auth.set_admin uid users = Auth.acc_id <$> users.
Proof.
  unfold Auth.set_admin. rewrite <- !list_fmap_compose.
  split; apply list_fmap_ext; intros i u _; simpl; by case_bool_decide.
Qed.

Lemma find_by_email_set_admin (email : string) (uid : Z) (users : list Auth.Account) :
  Auth.find_by_email email (Auth.set_admin uid users) =
    (λ u, if bool_decide (Auth.acc_id u = uid) then Auth.promoted u else u)
      <$> Auth.find_by_email email users.
Proof.
  unfold Auth.find_by_email, Auth.set_admin. induction users as [|u users IH]; [done|].
  rewrite fmap_cons, !filter_cons.
  destruct (decide (Auth.acc_email u = email)) as [Heq|Hne].
  - rewrite decide_True by (by case_bool_decide). done.
  - rewrite decide_False by (by case_bool_decide). done.
Qed.

(** X18.  [register] keeps the accounts table well formed (one row per email,
    one per key) and touches no account under another email.  A taken email
    gives 400 and no change; otherwise, unless hashing raises, one active
    account is appended under a fresh key with the hashed password and the
    role "user", whatever the email. *)
Theorem register_keeps_accounts (env : Auth.Env) (email password : string)
    (users : list Auth.Account) :
  Auth.well_formed users →
  let run := Auth.register env email password users in
  Auth.well_formed run.2 ∧
  (∀ other, other ≠ email →
     Auth.find_by_email other run.2 = Auth.find_by_email other users) ∧
  match Auth.find_by_email email users with
  | Some u =>
      run.1 = Raise (HTTPException 400 "Email already registered") ∧ run.2 = users
  | None =>
      match Auth.pwd_hash env password with
      | Raise e => run.1 = Raise e ∧ run.2 = users
      | Ok hashed =>
          run.1 = Ok "User created successfully" ∧
          ∃ u, run.2 = users ++ [u] ∧ Auth.find_by_email email run.2 = Some u ∧
               Auth.acc_email u = email ∧ Auth.acc_role u = "user" ∧
               Auth.is_active u = true ∧ Auth.hashed_password u = hashed ∧
               Forall (λ v, Auth.acc_id v ≠ Auth.acc_id u) users
      end
  end.
Proof.
  intros Hwf run. subst run. unfold Auth.register.
  destruct (Auth.find_by_email email users) as [u|] eqn:Hfind; cbn [fst snd]; [done|].
  destruct (Auth.pwd_hash env password) as [hashed|e]; cbn [fst snd]; [|done].
  - split; [by apply well_formed_add|]. split.
    + intros other Hne. rewrite find_by_email_app.
      destruct (Auth.find_by_email other users); [done|].
      unfold Auth.find_by_email. rewrite filter_cons_False; [done|]. simpl. congruence.
    + split; [done|]. eexists. split; [reflexivity|].
      split; [|repeat split; try done].
      * rewrite find_by_email_app, Hfind. unfold Auth.find_by_email.
        by rewrite filter_cons_True.
      * apply Forall_forall. intros v Hv. simpl.
        pose proof (next_id_above users v Hv). lia.
Qed.

(** X19.  [google_login] with a token verified for [email] keeps the table
    well formed and touches no account under another email; it answers with
    the account now stored under [email] and its role.  That role is "admin"
    when [email] is the admin email; otherwise an existing account is left
    as it is and a new one gets the role "user".  An existing account keeps its
    key and its stored password. *)
Theorem google_login_roles (env : Auth.Env) (token email : string)
    (users : list Auth.Account) :
  Auth.well_formed users →
  Auth.google_verify env token = Auth.GoogleEmail email →
  let run := Auth.google_login env token users in
  Auth.well_formed run.2 ∧
  (∀ other, other ≠ email →
     Auth.find_by_email other run.2 = Auth.find_by_email other users) ∧
  ∃ reply u,
    run.1 = Ok (reply, email) ∧
    Auth.find_by_email email run.2 = Some u ∧
    Auth.reply_role reply = Auth.acc_role u ∧
    (email = Auth.admin_email env → Auth.acc_role u = "admin") ∧
    (email ≠ Auth.admin_email env →
       match Auth.find_by_email email users with
       | Some u0 => u = u0
       | None => Auth.acc_role u = "user"
       end) ∧
    (∀ u0, Auth.find_by_email email users = Some u0 →
       Auth.acc_id u = Auth.acc_id u0 ∧ Auth.hashed_password u = Auth.hashed_password u0) ∧
    Auth.access_token reply =
      Auth.jwt_encode env (Auth.access_payload env {[ "sub" := Auth.ClaimStr email ]} None).
Proof.
  intros Hwf Hverify run. subst run. unfold Auth.google_login. rewrite Hverify.
  destruct (Auth.find_by_email email users) as [u0|] eqn:Hfind.
  - destruct (find_by_email_Some _ _ _ Hfind) as [Hin Hemail].
    destruct (bool_decide (email = Auth.admin_email env)
              && negb (bool_decide (Auth.acc_role u0 = "admin"))) eqn:Hpromote;
      cbn [fst snd Auth.acc_email Auth.acc_role].
    + apply andb_prop in Hpromote as [Hadmin%bool_decide_eq_true_1 _].
      destruct (set_admin_columns (Auth.acc_id u0) users) as [He Hi].
      split; [unfold Auth.well_formed; by rewrite He, Hi|]. split.
      * intros other Hne. rewrite find_by_email_set_admin.
        destruct (Auth.find_by_email other users) as [v|] eqn:Hv; [|done].
        destruct (find_by_email_Some _ _ _ Hv) as [Hvin Hvemail]. simpl.
        case_bool_decide as Hid; [|done].
        destruct Hwf as [_ Hids].
        pose proof (same_id_same_account users v u0 Hids Hvin Hin Hid). congruence.
      * eexists _, (Auth.promoted u0). rewrite Hemail. split; [done|].
        split; [rewrite find_by_email_set_admin, Hfind; simpl;
                by rewrite bool_decide_true|].
        split; [done|]. split; [done|]. split; [by intros Hne|].
        split; [by intros u1 [= <-]|done].
    + split; [done|]. split; [done|]. exists (Auth.mkTokenReply
        (Auth.create_access_token env {[ "sub" := Auth.ClaimStr (Auth.acc_email u0) ]} None)
        "bearer" (Auth.acc_role u0)), u0.
      rewrite Hemail. split; [done|]. split; [done|]. split; [done|]. split.
      * intros Hadmin. rewrite bool_decide_true in Hpromote by done.
        simpl in Hpromote. apply negb_false_iff in Hpromote.
        by apply bool_decide_eq_true_1 in Hpromote.
      * split; [by intros _|]. split; [by intros u1 [= <-]|done].
  - cbn [fst snd Auth.acc_email Auth.acc_role].
    split; [by apply well_formed_add|]. split.
    + intros other Hne. rewrite find_by_email_app.
      destruct (Auth.find_by_email other users); [done|].
      unfold Auth.find_by_email. rewrite filter_cons_False; [done|]. simpl. congruence.
    + eexists _, _. split; [done|]. split.
      { rewrite find_by_email_app, Hfind. unfold Auth.find_by_email.
        by rewrite filter_cons_True. }
      cbn [Auth.acc_role]. split; [done|]. split; [by intros ->; rewrite bool_decide_true|].
      split; [by intros Hne; rewrite bool_decide_false|]. split; [by intros u1 [=]|done].
Qed.

Lemma access_payload_default (env : Auth.Env) (email : string) :
  let payload := Auth.access_payload env {[ "sub" := Auth.ClaimStr email ]} None in
  payload !! "sub" = Some (Auth.ClaimStr email) ∧
  payload !! "exp" = Some (Auth.ClaimTime (Auth.utcnow env + Auth.default_lifetime)).
Proof.
  unfold Auth.access_payload. cbv zeta. split.
  - rewrite lookup_insert_ne by done. apply lookup_singleton_eq.
  - apply lookup_insert_eq.
Qed.

(** X20.  [login] answers a token exactly when the email is registered and
    the password verifies; the token signs the email as "sub" and an expiry
    [default_lifetime] (15 minutes) after the call, and the reply carries the
    account's role.  An unknown email and a wrong password give the same 401;
    an exception of the verifier is passed on. *)
Theorem login_outcomes (env : Auth.Env) (username password : string)
    (users : list Auth.Account) :
  let run := Auth.login env username password users in
  (∀ reply, run = Ok reply →
     ∃ u payload,
       Auth.find_by_email username users = Some u ∧
       Auth.pwd_verify env password (Auth.hashed_password u) = Ok true ∧
       Auth.reply_role reply = Auth.acc_role u ∧
       Auth.token_type reply = "bearer" ∧
       Auth.access_token reply = Auth.jwt_encode env payload ∧
       payload !! "sub" = Some (Auth.ClaimStr username) ∧
       payload !! "exp" = Some (Auth.ClaimTime (Auth.utcnow env + Auth.default_lifetime))) ∧
  (Auth.find_by_email username users = None →
     run = Raise (HTTPException 401 "Incorrect email or password")) ∧
  (∀ u, Auth.find_by_email username users = Some u →
        match Auth.pwd_verify env password (Auth.hashed_password u) with
        | Ok true => ∃ reply, run = Ok reply
        | Ok false => run = Raise (HTTPException 401 "Incorrect email or password")
        | Raise e => run = Raise e
        end).
Proof.
  intros run. subst run. unfold Auth.login.
  destruct (Auth.find_by_email username users) as [u|] eqn:Hfind.
  - destruct (find_by_email_Some _ _ _ Hfind) as [_ Hemail].
    destruct (Auth.pwd_verify env password (Auth.hashed_password u)) as [[|]|e] eqn:Hpw.
    + split; [|split; [done|]].
      * intros reply [= <-]. exists u, (Auth.access_payload env
          {[ "sub" := Auth.ClaimStr (Auth.acc_email u) ]} None).
        destruct (access_payload_default env (Auth.acc_email u)) as [Hsub Hexp].
        rewrite Hemail in *. repeat split; done.
      * intros u' [= <-]. rewrite Hpw. eauto.
    + split; [by intros reply [=]|]. split; [done|].
      intros u' [= <-]. by rewrite Hpw.
    + split; [by intros reply [=]|]. split; [done|].
      intros u' [= <-]. by rewrite Hpw.
  - split; [by intros reply [=]|]. split; [done|]. by intros u [=].
Qed.

(** X21.  [get_current_user] returns only an account of the table whose email
    is the "sub" claim of the decoded token; every other case is the 401
    "Could not validate credentials". *)
Theorem get_current_user_sound (env : Auth.Env) (token : string)
    (users : list Auth.Account) :
  match Auth.get_current_user env token users with
  | Ok u =>
      u ∈ users ∧
      ∃ payload, Auth.jwt_decode env token = Some payload ∧
                 payload !! "sub" = Some (Auth.ClaimStr (Auth.acc_email u))
  | Raise e => e = HTTPException 401 "Could not validate credentials"
  end.
Proof.
  unfold Auth.get_current_user.
  destruct (Auth.jwt_decode env token) as [payload|]; [|done].
  destruct (payload !! "sub") as [[email|t]|] eqn:Hsub; [|done|done].
  destruct (Auth.find_by_email email users) as [u|] eqn:Hfind; [|done].
  destruct (find_by_email_Some _ _ _ Hfind) as [Hin Hemail].
  split; [done|]. exists payload. by rewrite Hemail.
Qed.

(** X22.  Register, sign in, be recognised: for a free email, a password the
    hasher accepts and the verifier recognises, and a token codec that
    preserves the "sub" claim, [login] after [register] succeeds with role
    "user" and [get_current_user] on the issued token returns the account
    [register] created. *)
Theorem register_login_roundtrip (env : Auth.Env) (email password hashed : string)
    (users : list Auth.Account) :
  Auth.find_by_email email users = None →
  Auth.pwd_hash env password = Ok hashed →
  Auth.pwd_verify env password hashed = Ok true →
  (∀ payload e, payload !! "sub" = Some (Auth.ClaimStr e) →
     ∃ payload', Auth.jwt_decode env (Auth.jwt_encode env payload) = Some payload' ∧
                 payload' !! "sub" = Some (Auth.ClaimStr e)) →
  let users' := (Auth.register env email password users).2 in
  let account := Auth.mkAccount (Auth.next_id users) email hashed true "user" in
  ∃ reply,
    Auth.login env email password users' = Ok reply ∧
    Auth.reply_role reply = "user" ∧
    Auth.get_current_user env (Auth.access_token reply) users' = Ok account.
Proof.
  intros Hnew Hhash Hpw Hjwt users' account.
  assert (Hfind : Auth.find_by_email email users' = Some account).
  { subst users'. unfold Auth.register. rewrite Hnew, Hhash. cbn [snd].
    rewrite find_by_email_app, Hnew. unfold Auth.find_by_email.
    by rewrite filter_cons_True. }
  unfold Auth.login. rewrite Hfind. cbn [Auth.hashed_password account]. rewrite Hpw.
  eexists. split; [reflexivity|]. split; [done|].
  cbn [Auth.access_token Auth.acc_email account].
  unfold Auth.get_current_user, Auth.create_access_token.
  destruct (access_payload_default env email) as [Hsub _].
  destruct (Hjwt _ _ Hsub) as (payload' & -> & ->). by rewrite Hfind.
Qed.

(** ** Worked instances *)

Lemma consecutive_chunks_overlap_witness :
  let text := Demo.repeat_char 1000 "a" +:+ Demo.repeat_char 1000 "b" in
  let c0 := Py.slice text 0 1000 in
  let c1 := Py.slice text 800 1800 in
  chunk_text text !! 0 = Some c0 ∧ chunk_text text !! 1 = Some c1 ∧
  Py.slice c0 800 1000 = Py.slice c1 0 200 ∧
  Py.len (Py.slice c0 800 1000) = 200 `min` Py.len c1 ∧
  Py.len c1 = 1000 ∧
  Py.slice c1 0 200 = Demo.repeat_char 200 "a".
Proof.
  intros text c0 c1.
  assert (H0 : chunk_text text !! 0 = Some c0) by (by vm_compute).
  assert (H1 : chunk_text text !! 1 = Some c1) by (by vm_compute).
  destruct (consecutive_chunks_overlap text 0 c0 c1 H0 H1)
    as (Hoverlap & _ & _ & _ & _ & Hlen & _).
  split; [exact H0|]. split; [exact H1|]. split; [exact Hoverlap|]. split; [exact Hlen|].
  split; by vm_compute.
Defined.

(** A text of 900 characters: chunks of 900 and 100 characters, the second
    being the last 100 characters of the first. *)
Example short_overlap :
  let text := Demo.repeat_char 800 "a" +:+ Demo.repeat_char 100 "b" in
  Py.len <$> chunk_text text = [900; 100] ∧
  (λ c, Py.slice c 800 1000) <$> chunk_text text !! 0 = chunk_text text !! 1 ∧
  chunk_text text !! 1 = Some (Demo.repeat_char 100 "b").
Proof. by vm_compute. Qed.

Lemma ingest_does_not_affect_other_users_witness :
  let after := final (ingest_pdf [] "notes.pdf" Demo.bob Sample.one_page Demo.two_users) in
  Demo.bob ≠ Demo.alice ∧
  length (index after) = 3 ∧
  outcome (_search_pdf_sync "hello" (Py.str_int Demo.alice) Sample.one_page after) =
  outcome (_search_pdf_sync "hello" (Py.str_int Demo.alice) Sample.one_page Demo.two_users).
Proof.
  intros after.
  assert (Hne : Demo.bob ≠ Demo.alice) by done.
  split; [exact Hne|]. split; [by vm_compute|].
  exact (proj2 (ingest_does_not_affect_other_users Sample.one_page Demo.two_users []
                  "notes.pdf" Demo.alice Demo.bob "hello" 5 Hne)).
Defined.

Lemma upload_then_search_finds_document_witness :
  let w := Sample.one_page in
  let after := final (ingest_pdf [] "notes.pdf" Demo.alice w Demo.empty) in
  (collection_enabled w = true ∧ pdf_pages w [] = Ok ["Hello world."] ∧
   chroma_fault w OpAdd = None ∧ chroma_fault w (OpQuery "greeting?") = None ∧
   Py.truthy (Py.strip (extracted_text ["Hello world."])) = true ∧
   Forall (λ e, Py.truthy (Chroma.document e) = true) (index Demo.empty)) ∧
  ∃ ctx, Py.truthy ctx = true ∧
         outcome (_search_pdf_sync "greeting?" (Py.str_int Demo.alice) w after)
           = Ok (Some ctx).
Proof.
  intros w after.
  assert (Hstore : Forall (λ e, Py.truthy (Chroma.document e) = true) (index Demo.empty))
    by constructor.
  split; [repeat split; done|].
  destruct (upload_then_search_finds_document w Demo.empty [] "notes.pdf" Demo.alice
              ["Hello world."] "greeting?" eq_refl eq_refl eq_refl eq_refl eq_refl Hstore)
    as (ctx & Hctx & Hsearch & _).
  exists ctx. split; [exact Hctx|exact Hsearch].
Defined.

Lemma chat_rejects_foreign_session_witness :
  let row := Orm.mkSession Demo.alice "hello..." in
  Orm.sessions (db Demo.chatted) !! req_session_id Sample.s1_request = Some row ∧
  Orm.user_id row ≠ Orm.user_pk Sample.bob_user ∧
  chat_endpoint Sample.s1_request Sample.bob_user Demo.chatty Demo.chatted
    = (Raise integrity_error, Demo.chatted, []).
Proof.
  intros row.
  assert (Hrow : Orm.sessions (db Demo.chatted) !! req_session_id Sample.s1_request = Some row)
    by (by vm_compute).
  assert (Hne : Orm.user_id row ≠ Orm.user_pk Sample.bob_user) by done.
  split; [exact Hrow|]. split; [exact Hne|].
  exact (chat_rejects_foreign_session run_agent Demo.chatty Demo.chatted Sample.s1_request
           Sample.bob_user row Hrow Hne).
Defined.

Lemma chat_then_history_witness :
  let w := Sample.newest_first in
  let run := chat_endpoint Sample.s1_request Demo.alice_user w Demo.chatted in
  let reply := mkChatResponse "Sure." "General Knowledge" "s1" in
  preserves_db run_agent ∧
  outcome run = Ok reply ∧
  outcome (get_history "s1" Demo.alice_user w (final run)) =
    Ok [mkMsg "model" "Sure."; mkMsg "user" "And then?"; mkMsg "user" "hello"] ∧
  ∃ msgs,
    outcome (get_history "s1" Demo.alice_user w (final run)) = Ok msgs ∧
    msgs ≡ₚ [mkMsg "user" "hello"; mkMsg "user" "And then?"; mkMsg "model" "Sure."].
Proof.
  intros w run reply.
  assert (Hok : outcome run = Ok reply) by (by vm_compute).
  split; [exact run_agent_preserves_db|]. split; [exact Hok|]. split; [by vm_compute|].
  destruct (chat_then_history run_agent w Demo.chatted Sample.s1_request
              Demo.alice_user reply run_agent_preserves_db Hok) as (msgs & Hget & Hperm & _).
  exists msgs. split; [exact Hget|exact Hperm].
Defined.

(** On a backend that returns rows as they were inserted the history reads in
    the order of the conversation. *)
Example chat_then_history_in_log_order :
  let run := chat_endpoint Sample.s1_request Demo.alice_user Demo.chatty Demo.chatted in
  outcome (get_history "s1" Demo.alice_user Demo.chatty (final run)) =
    Ok [mkMsg "user" "hello"; mkMsg "user" "And then?"; mkMsg "model" "Sure."].
Proof. by vm_compute. Qed.

Lemma register_keeps_accounts_witness :
  let run := Auth.register Sample.plain_env "ann@example.org" "secret" [] in
  Auth.well_formed [] ∧
  Auth.well_formed run.2 ∧
  run.1 = Ok "User created successfully" ∧
  Auth.acc_role <$> run.2 = ["user"].
Proof.
  intros run.
  assert (Hwf : Auth.well_formed []) by (split; constructor).
  destruct (register_keeps_accounts Sample.plain_env "ann@example.org" "secret" [] Hwf)
    as (Hwf' & _ & Hok & _).
  split; [exact Hwf|]. split; [exact Hwf'|]. split; [exact Hok|]. reflexivity.
Defined.

Lemma google_login_roles_witness :
  let run := Auth.google_login Sample.plain_env "root@example.org" [] in
  Auth.well_formed [] ∧
  Auth.google_verify Sample.plain_env "root@example.org" = Auth.GoogleEmail "root@example.org" ∧
  Auth.well_formed run.2 ∧
  Auth.acc_role <$> run.2 = ["admin"].
Proof.
  intros run.
  assert (Hwf : Auth.well_formed []) by (split; constructor).
  destruct (google_login_roles Sample.plain_env "root@example.org" "root@example.org" []
              Hwf eq_refl) as (Hwf' & _).
  split; [exact Hwf|]. split; [reflexivity|]. split; [exact Hwf'|]. reflexivity.
Defined.

Lemma register_login_roundtrip_witness :
  let env := Sample.plain_env in
  let users' := (Auth.register env "ann@example.org" "secret" []).2 in
  (Auth.find_by_email "ann@example.org" [] = None ∧
   Auth.pwd_hash env "secret" = Ok "hash:secret" ∧
   Auth.pwd_verify env "secret" "hash:secret" = Ok true) ∧
  ∃ reply,
    Auth.login env "ann@example.org" "secret" users' = Ok reply ∧
    Auth.get_current_user env (Auth.access_token reply) users'
      = Ok (Auth.mkAccount 1 "ann@example.org" "hash:secret" true "user").
Proof.
  intros env users'. split; [repeat split|].
  assert (Hjwt : ∀ payload e, payload !! "sub" = Some (Auth.ClaimStr e) →
            ∃ payload', Auth.jwt_decode env (Auth.jwt_encode env payload) = Some payload' ∧
                        payload' !! "sub" = Some (Auth.ClaimStr e)).
  { intros payload e Hsub. eexists. split; [reflexivity|]. simpl. rewrite Hsub.
    apply lookup_singleton_eq. }
  destruct (register_login_roundtrip env "ann@example.org" "secret" "hash:secret" []
              eq_refl eq_refl eq_refl Hjwt) as (reply & Hlogin & _ & Hwho).
  exists reply. split; [exact Hlogin|exact Hwho].
Defined.
